(** * The VIC provider of virtual-kubelet: pod proxy, image store and
      isolation proxy

    A shallow embedding of [providers/vic/pod_proxy.go] (package [vic]) and of
    [providers/vic/proxy] (package [proxy]: the image store and the isolation
    proxy), followed by the properties of the configuration translation, of
    the resource normalisation and of the handle pipeline.

    Conventions of the embedding.
    - Go's [int] and [int64] are [Z]; [int] is taken to be 64 bits wide (the
      platforms the provider is built for).  Where a sum could leave the
      64-bit range the wrap-around [wrap64] is written out.
    - A [string] is [String.string]; a slice is a [list] (the code only ever
      asks a slice for its length, never whether it is [nil]); a Go map is a
      [gmap]; a pointer that the code compares with [nil] is an [option].
    - A function that receives a pointer and writes through it returns the
      updated record next to its result.
    - Remote calls, the image cache, the HTTP client and the pod proxy's image
      store are collaborators outside the repository: they are oracles over an
      abstract world, and every request sent to them is appended to a trace.
    - An index out of range or a nil dereference is the outcome [Panicked]. *)

From Stdlib Require Import ZArith Ascii String List Lia.
From stdpp Require Import base option gmap strings list.

Local Open Scope string_scope.
Local Open Scope list_scope.
Local Open Scope stdpp_scope.

(** ** What the embedding takes from the Go runtime and standard library *)
Module Go.

(** [int64]: range and two's-complement wrap-around. *)
Definition is_int64 (z : Z) : Prop := (- 2 ^ 63 <= z < 2 ^ 63)%Z.

Definition wrap64 (z : Z) : Z := ((z + 2 ^ 63) mod 2 ^ 64 - 2 ^ 63)%Z.

(** Go's [/] and [%] on signed integers truncate toward zero. *)
Definition div (a b : Z) : Z := Z.quot a b.
Definition rem (a b : Z) : Z := Z.rem a b.

(** The two ways a call can end. *)
Inductive outcome (A : Type) : Type :=
| Returned (a : A)
| Panicked.
Arguments Returned {A} a.
Arguments Panicked {A}.

(** Messages are kept as written, format and operands, and never rendered:
    [Sprintf] stands for [fmt.Sprintf] (its format may itself be a rendered
    message), and [fmt.Errorf format operands] is
    [New (Sprintf format operands)].  An error that comes back from a
    collaborator is known by the text of its [Error()] method, a [Lit]. *)
Inductive NumErr : Type := ErrSyntax | ErrRange.

Inductive text : Type :=
| Lit (s : string)
| Sprintf (format : text) (operands : list operand)
with operand : Type :=
| OpString (s : string)
| OpInt (z : Z)
| OpText (t : text)
| OpError (e : error)
with error : Type :=
| New (msg : text)
| NumError (func num : string) (err : NumErr)
| BadRequestError (msg : text)
| InternalServerError (msg : text)
| NillPortlayerClientError (caller : string).

Coercion Lit : string >-> text.

Definition Errorf (format : text) (operands : list operand) : error :=
  New (Sprintf format operands).

(** [strings.HasPrefix]. *)
Definition HasPrefix (s pre : string) : bool := String.prefix pre s.

(** [strings.Cut] for a one-byte separator: the text before and after the
    first occurrence. *)
Fixpoint Cut (s : string) (sep : ascii) : option (string * string) :=
  match s with
  | EmptyString => None
  | String c rest =>
      if Ascii.eqb c sep then Some (EmptyString, rest)
      else match Cut rest sep with
           | Some (before, after) => Some (String c before, after)
           | None => None
           end
  end.

(** [strings.SplitN(s, sep, n)] for a one-byte separator. *)
Fixpoint SplitN (s : string) (sep : ascii) (n : nat) : list string :=
  match n with
  | O => []
  | S O => [s]
  | S n' => match Cut s sep with
            | Some (before, after) => before :: SplitN after sep n'
            | None => [s]
            end
  end.

(** [strings.Split(s, sep)] for a one-byte separator: never empty. *)
Fixpoint Split (s : string) (sep : ascii) : list string :=
  match s with
  | EmptyString => [EmptyString]
  | String c rest =>
      if Ascii.eqb c sep then EmptyString :: Split rest sep
      else match Split rest sep with
           | x :: xs => String c x :: xs
           | [] => [String c EmptyString]
           end
  end.

(** [strconv.Atoi]: an optional sign, then decimal digits; the value has to
    fit [int]. *)
Definition digit (c : ascii) : option Z :=
  let n := Z.of_nat (nat_of_ascii c) in
  if ((48 <=? n) && (n <=? 57))%Z then Some (n - 48)%Z else None.

Fixpoint parseDigits (s : string) (n : Z) : Z + NumErr :=
  match s with
  | EmptyString => inl n
  | String c rest =>
      match digit c with
      | None => inr ErrSyntax
      | Some d =>
          if (2 ^ 64 <=? n * 10 + d)%Z then inr ErrRange
          else parseDigits rest (n * 10 + d)%Z
      end
  end.

Definition Atoi (s : string) : Z + error :=
  let '(neg, body) :=
    match s with
    | String "-" rest => (true, rest)
    | String "+" rest => (false, rest)
    | _ => (false, s)
    end in
  match body with
  | EmptyString => inr (NumError "Atoi" s ErrSyntax)
  | _ =>
      match parseDigits body 0 with
      | inr e => inr (NumError "Atoi" s e)
      | inl un =>
          if negb neg && (2 ^ 63 <=? un)%Z then inr (NumError "Atoi" s ErrRange)
          else if neg && (2 ^ 63 <? un)%Z then inr (NumError "Atoi" s ErrRange)
          else inl (if neg then - un else un)%Z
      end
  end.

(** A computation over a world [W]: the world holds the collaborators'
    state and the trace of what was asked of them. *)
Definition M (W A : Type) : Type := W -> A * W.

Definition ret {W A : Type} (a : A) : M W A := fun w => (a, w).

Definition bind {W A B : Type} (m : M W A) (k : A -> M W B) : M W B :=
  fun w => let '(a, w') := m w in k a w'.

End Go.

Notation "'let*' x ':=' m 'in' k" := (Go.bind m (fun x => k))
  (at level 10, x pattern, m at level 100, k at level 200).

(** ** The collaborators' data types, as far as the provider touches them *)

(** [github.com/docker/docker/api/types/container]. *)
Module container.

(** [container.Config].  [Volumes] is a Go map used as a set, and the code
    asks whether it is [nil]. *)
Record Config : Type := {
  User : string;
  Tty : bool;
  OpenStdin : bool;
  StdinOnce : bool;
  Env : list string;
  Cmd : list string;
  Image : string;
  Volumes : option (gset string);
  WorkingDir : string;
  Entrypoint : list string
}.

(** The zero value. *)
Definition zeroConfig : Config :=
  {| User := ""; Tty := false; OpenStdin := false; StdinOnce := false;
     Env := []; Cmd := []; Image := ""; Volumes := None; WorkingDir := "";
     Entrypoint := [] |}.

(** [container.HostConfig], with the embedded [Resources]. *)
Record HostConfig : Type := {
  CPUCount : Z;
  CpusetCpus : string;
  Memory : Z
}.

Definition zeroHostConfig : HostConfig :=
  {| CPUCount := 0; CpusetCpus := ""; Memory := 0 |}.

End container.

(** [github.com/moby/moby/api/types]. *)
Module types.

Record ContainerCreateConfig : Type := {
  Name : string;
  Config : option container.Config;
  HostConfig : option container.HostConfig
}.

End types.

(** [k8s.io/api/core/v1]. *)
Module v1.

(** A [resource.Quantity], known by what its [Value()] method reports. *)
Record Quantity : Type := { Value : Z }.

(** [ResourceList]: resource name to quantity. *)
Definition ResourceList : Type := gmap string Quantity.

(** [ResourceList.Cpu] and [ResourceList.Memory]: the entry, or the zero
    quantity when the list has none. *)
Definition Cpu (l : ResourceList) : Quantity :=
  match l !! "cpu" with Some q => q | None => {| Value := 0 |} end.

Definition Memory (l : ResourceList) : Quantity :=
  match l !! "memory" with Some q => q | None => {| Value := 0 |} end.

Record ResourceRequirements : Type := {
  Limits : ResourceList;
  Requests : ResourceList
}.

Record EnvVar : Type := { EnvName : string; EnvValue : string }.

Record Container : Type := {
  Name : string;
  Image : string;
  Command : list string;
  Args : list string;
  WorkingDir : string;
  Env : list EnvVar;
  Resources : ResourceRequirements;
  Stdin : bool;
  StdinOnce : bool;
  TTY : bool
}.

(** A [Pod], reduced to [pod.Name] and [pod.Spec.Containers]. *)
Record Pod : Type := {
  PodName : string;
  Containers : list Container
}.

End v1.

(** [github.com/vmware/vic/lib/metadata]. *)
Module metadata.

(** [metadata.ImageConfig]: the image record with its [Config] pointer. *)
Record ImageConfig : Type := {
  ImageID : string;
  Config : option container.Config
}.

End metadata.

(** ** Package [vic]: [pod_proxy.go] *)
Module vic.
Import Go.

Definition defaultEnvPath : string :=
  "/usr/local/sbin:/usr/local/bin:/usr/sbin:/usr/bin:/sbin:/bin".

(** The value to which container VM memory must align for hot-add. *)
Definition MemoryAlignMB : Z := 128.
(** The minimum allowable container memory size. *)
Definition MemoryMinMB : Z := 512.
(** The default container VM memory size. *)
Definition MemoryDefaultMB : Z := 2048.
(** The minimum number of CPUs a container can use. *)
Definition MinCPUs : Z := 1.
(** The default number of container VM CPUs. *)
Definition DefaultCPUs : Z := 2.

(** [units.MiB] of [github.com/docker/go-units]. *)
Definition MiB : Z := 1048576.

(** *** Kube container spec to create config *)

Definition KubeSpecToDockerCreateSpec (cSpec : v1.Container)
  : types.ContainerCreateConfig :=
  let config : container.Config :=
    {| container.User := "";
       container.Tty := v1.TTY cSpec;
       container.OpenStdin := v1.Stdin cSpec;
       container.StdinOnce := v1.StdinOnce cSpec;
       container.Env := [];
       container.Cmd :=
         if Nat.eqb (length (v1.Command cSpec)) 0 then []
         else v1.Command cSpec;
       container.Image := v1.Image cSpec;
       container.Volumes := None;
       container.WorkingDir := v1.WorkingDir cSpec;
       container.Entrypoint := [] |} in
  let hostConfig : container.HostConfig :=
    {| container.CPUCount := v1.Value (v1.Cpu (v1.Limits (v1.Resources cSpec)));
       container.CpusetCpus := "";
       container.Memory := v1.Value (v1.Memory (v1.Limits (v1.Resources cSpec))) |} in
  {| types.Name := v1.Name cSpec;
     types.Config := Some config;
     types.HostConfig := Some hostConfig |}.

(** *** Environment merge *)

(** The first loop looks for a user [PATH], the second for the image's. *)
Definition setPathFromImageConfig (env imgEnv : list string) : list string :=
  if existsb (fun v => HasPrefix v "PATH=") env then env
  else match find (fun v => HasPrefix v "PATH=") imgEnv with
       | Some v => env ++ [v]
       | None => env ++ ["PATH=" +:+ defaultEnvPath]
       end.

(** One round of the loop that fills [containerEnv]. *)
Definition recordEnv (containerEnv : gmap string string) (e : string)
  : gmap string string :=
  let kv := SplitN e "=" 2 in
  let val := match kv with [_; v] => v | _ => "" end in
  <[ hd "" kv := val ]> containerEnv.

(** One round of the loop over the image's environment; [containerEnv] is
    not updated by it. *)
Definition copyImageEnv (containerEnv : gmap string string)
  (env : list string) (imageEnv : string) : list string :=
  let key := hd "" (SplitN imageEnv "=" 2) in
  match containerEnv !! key with
  | Some _ => env
  | None => env ++ [imageEnv]
  end.

Definition setEnvFromImageConfig (tty : bool) (env imgEnv : list string)
  : list string :=
  let env := setPathFromImageConfig env imgEnv in
  let containerEnv := foldl recordEnv ∅ env in
  let env :=
    if tty then
      match containerEnv !! "TERM" with
      | Some _ => env
      | None => env ++ ["TERM=xterm"]
      end
    else env in
  foldl (copyImageEnv containerEnv) env imgEnv.

(** [setCreateConfigOptions] writes through [config]; reading a field of a
    nil [imageConfig] panics. *)
Definition setCreateConfigOptions (config : container.Config)
  (imageConfig : option container.Config) : outcome container.Config :=
  match imageConfig with
  | None => Panicked
  | Some imageConfig =>
      Returned
        {| container.User :=
             if String.eqb (container.User config) ""
             then container.User imageConfig else container.User config;
           container.Tty := container.Tty config;
           container.OpenStdin := container.OpenStdin config;
           container.StdinOnce := container.StdinOnce config;
           container.Env :=
             setEnvFromImageConfig (container.Tty config)
               (container.Env config) (container.Env imageConfig);
           container.Cmd :=
             if Nat.eqb (length (container.Cmd config)) 0
             then container.Cmd imageConfig else container.Cmd config;
           container.Image := container.Image config;
           container.Volumes :=
             match container.Volumes config with
             | None => container.Volumes imageConfig
             | Some vols =>
                 Some (match container.Volumes imageConfig with
                       | Some imgVols => vols ∪ imgVols
                       | None => vols
                       end)
             end;
           container.WorkingDir :=
             if String.eqb (container.WorkingDir config) ""
             then container.WorkingDir imageConfig
             else container.WorkingDir config;
           container.Entrypoint :=
             if Nat.eqb (length (container.Entrypoint config)) 0
             then container.Entrypoint imageConfig
             else container.Entrypoint config |}
  end.

(** *** Resource normalisation *)

Definition withHostConfig (config : types.ContainerCreateConfig)
  (hc : container.HostConfig) : types.ContainerCreateConfig :=
  {| types.Name := types.Name config;
     types.Config := types.Config config;
     types.HostConfig := Some hc |}.

(** The CPU count the code settles on before the floor, or the parse
    error. *)
Definition cpuCountOf (hc : container.HostConfig) : Z + error :=
  if (0 <? container.CPUCount hc)%Z then inl (container.CPUCount hc)
  else if String.eqb (container.CpusetCpus hc) "" then inl DefaultCPUs
  else
    let cpus := Split (container.CpusetCpus hc) "," in
    match Atoi (hd "" cpus) with
    | inl c => inl (wrap64 c)
    | inr err => inr (Errorf "Error parsing CPU count: %s" [OpError err])
    end.

(** The memory the code settles on, in MiB: converted from bytes, defaulted,
    floored, then rounded up to the alignment. *)
Definition memoryMBOf (memory : Z) : Z :=
  let memoryMB := div memory MiB in
  let memoryMB :=
    if (memoryMB =? 0)%Z then MemoryDefaultMB
    else if (memoryMB <? MemoryMinMB)%Z then MemoryMinMB
    else memoryMB in
  let remainder := rem memoryMB MemoryAlignMB in
  if negb (remainder =? 0)%Z
  then wrap64 (memoryMB + wrap64 (MemoryAlignMB - remainder))
  else memoryMB.

(** [validateCreateConfig] may fix up the config it is given: the result is
    the config as it is left, and the error. *)
Definition validateCreateConfig (config : types.ContainerCreateConfig)
  : types.ContainerCreateConfig * option error :=
  match types.Config config with
  | None => (config, Some (BadRequestError (Lit "invalid config")))
  | Some _ =>
      let hc :=
        match types.HostConfig config with
        | Some hc => hc
        | None => container.zeroHostConfig
        end in
      match cpuCountOf hc with
      | inr err => (withHostConfig config hc, Some err)
      | inl cpuCount =>
          let cpus := if (cpuCount <? MinCPUs)%Z then MinCPUs else cpuCount in
          let memoryMB := memoryMBOf (container.Memory hc) in
          (withHostConfig config
             {| container.CPUCount := cpus;
                container.CpusetCpus := container.CpusetCpus hc;
                container.Memory := memoryMB |},
           None)
      end
  end.

(** *** Pod creation *)

(** What the pod proxy asks of its collaborators and what it logs. *)
Inductive Event : Type :=
| ImageStoreGet (image : string)
| LogError (err : error)
| LogErrorf (format : string) (operands : list string)
| LogInfof (format : string) (config : container.Config).

Section PodProxy.

(** The image store of package [vic] is not part of this file: [Get]
    answers with an image pointer and the text of an error, and may change
    the store. *)
Variable Store : Type.
Variable imageStore_Get :
  string -> Store -> (option metadata.ImageConfig * option string) * Store.

Record World : Type := {
  store : Store;
  trace : list Event
}.

Definition emit (ev : Event) : M World unit :=
  fun w => (tt, {| store := store w; trace := trace w ++ [ev] |}).

Definition callImageStoreGet (image : string)
  : M World (option metadata.ImageConfig * option string) :=
  fun w =>
    let '(r, s) := imageStore_Get image (store w) in
    (r, {| store := s; trace := trace w ++ [ImageStoreGet image] |}).

(** [createContainer] returns the error, or panics on a nil pointer; the
    [fmt.Errorf] call has two verbs and one operand. *)
Definition createContainer (config : types.ContainerCreateConfig)
  : M World (outcome (option error)) :=
  match types.Config config with
  | None => ret Panicked
  | Some cfg =>
      let* r := callImageStoreGet (container.Image cfg) in
      match r with
      | (_, Some msg) =>
          let err :=
            Errorf
              "PodProxy failed to get image %s's config from the image store: %s"
              [OpString msg] in
          let* _ := emit (LogError err) in
          ret (Returned (Some err))
      | (None, None) => ret Panicked
      | (Some image, None) =>
          match setCreateConfigOptions cfg (metadata.Config image) with
          | Panicked => ret Panicked
          | Returned cfg' =>
              let* _ := emit (LogInfof "config = %#v" cfg') in
              ret (Returned None)
          end
      end
  end.

(** The loop of [CreatePod] over [pod.Spec.Containers]. *)
Fixpoint createContainers (podName : string) (cs : list v1.Container)
  : M World (outcome unit) :=
  match cs with
  | [] => ret (Returned tt)
  | c :: rest =>
      let createConfig := KubeSpecToDockerCreateSpec c in
      let* r := createContainer createConfig in
      match r with
      | Panicked => ret Panicked
      | Returned err =>
          let* _ :=
            match err with
            | Some _ =>
                emit (LogErrorf "Failed to create container %s for pod %s"
                        [types.Name createConfig; podName])
            | None => ret tt
            end in
          createContainers podName rest
      end
  end.

Definition CreatePod (pod : v1.Pod) : M World (outcome (option error)) :=
  let* r := createContainers (v1.PodName pod) (v1.Containers pod) in
  match r with
  | Panicked => ret Panicked
  | Returned _ => ret (Returned None)
  end.

End PodProxy.

Arguments store {Store} w.
Arguments trace {Store} w.
Arguments Build_World {Store} store trace.
Arguments emit {Store} ev.
Arguments callImageStoreGet {Store} imageStore_Get image.
Arguments createContainer {Store} imageStore_Get config.
Arguments createContainers {Store} imageStore_Get podName cs.
Arguments CreatePod {Store} imageStore_Get pod.

End vic.

(** [github.com/vmware/vic/lib/apiservers/portlayer/models]. *)
Module models.

(** An [interface{}] that is expected to hold a string. *)
Inductive iface : Type :=
| IString (s : string)
| INotString.

Record NetworkConfig : Type := {
  NetworkName : string;
  Ports : list string
}.

Record ScopesAddContainerConfig : Type := {
  ScopeHandle : string;
  ScopeNetworkConfig : NetworkConfig
}.

Record TaskJoinConfig : Type := {
  Handle : iface;
  ID : string;
  Namespace : string;
  Path : string;
  Args : list string;
  Env : list string;
  WorkingDir : string;
  User : string;
  Attach : bool;
  OpenStdin : bool;
  Tty : bool;
  StopSignal : string
}.

Record TaskBindConfig : Type := {
  BindHandle : string;
  BindID : string
}.

End models.

(** ** Package [proxy]: the image store and the isolation proxy *)
Module proxy.
Import Go.

Record PortBinding : Type := {
  HostIP : string;
  HostPort : string
}.

Record IsolationContainerConfig : Type := {
  ID : string;
  ImageID : string;
  LayerID : string;
  ImageName : string;
  Name : string;
  Namespace : string;

  Cmd : list string;
  Path : string;
  Entrypoint : list string;
  Env : list string;
  WorkingDir : string;
  User : string;
  StopSignal : string;

  Attach : bool;
  StdinOnce : bool;
  OpenStdin : bool;
  Tty : bool;

  CPUCount : Z;
  Memory : Z;

  PortMap : gmap string PortBinding
}.

(** The default number of container VM CPUs, and the default memory. *)
Definition DefaultCPUs : Z := 2.
Definition DefaultMemory : Z := 512.

Definition DummyImage : string :=
  "f6e427c148a766d2d6c117d67359a0aa7d133b5bc05830a7ff6e8b64ff6b1d1d".
Definition DummyLayerID : string :=
  "02d3847f0b0fb7acd4419040cc53febf91cb112db2451d9b27a245dee5b227c0".
Definition DummyRepoName : string := "busybox".

(** *** Utility functions *)

(** Expand [Cmd] into the path and the arguments; indexing an empty slice
    panics. *)
Definition resolveTask (ic : IsolationContainerConfig)
  : outcome (string * list string) :=
  let cmd := Cmd ic in
  if negb (Nat.eqb (length (Entrypoint ic)) 0) then
    match Entrypoint ic with
    | path :: rest => Returned (path, rest ++ cmd)
    | [] => Panicked
    end
  else
    match cmd with
    | path :: args => Returned (path, args)
    | [] => Panicked
    end.

(** Convert isolation container config to portlayer task param.  The debug
    line the function writes is emitted by its caller, see
    [CreateHandleTask]. *)
Definition IsolationContainerConfigToTask (id layerID : string)
  (ic : IsolationContainerConfig) : outcome models.TaskJoinConfig :=
  match resolveTask ic with
  | Panicked => Panicked
  | Returned (path, args) =>
      Returned
        {| models.Handle := models.INotString;
           models.ID := id;
           models.Namespace := layerID;
           models.Path := path;
           models.Args := args;
           models.Env := Env ic;
           models.WorkingDir := WorkingDir ic;
           models.User := User ic;
           models.Attach := true;
           models.OpenStdin := OpenStdin ic;
           models.Tty := Tty ic;
           models.StopSignal := StopSignal ic |}
  end.

(** The result is a pointer to a fresh [NetworkConfig], never [nil].  A Go
    map is ranged over in no fixed order; [map_to_list] fixes one. *)
Definition networkConfigFromIsolationConfig (config : IsolationContainerConfig)
  : option models.NetworkConfig :=
  Some {| models.NetworkName := "default";
          models.Ports :=
            (fun kv : string * PortBinding =>
               HostPort (snd kv) +:+ ":" +:+ fst kv)
              <$> map_to_list (PortMap config) |}.

(** *** The world the package talks to *)

Inductive Level : Type := LInfo | LWarn | LError | LDebug.

Inductive Event : Type :=
| ScopesAddContainer (scope : string) (config : models.ScopesAddContainerConfig)
| ScopesRemoveContainer (handle scope : string)
| TasksJoin (config : models.TaskJoinConfig)
| TasksBind (config : models.TaskBindConfig)
| CacheGet (idOrRef : string)
| HttpPost (url contentType : string)
| Logf (level : Level) (format : text) (operands : list operand)
| LogConfig (level : Level) (format : string) (config : IsolationContainerConfig)
| LogTask (level : Level) (format : string) (config : models.TaskJoinConfig).

(** An HTTP response: the status code, and what [ioutil.ReadAll] makes of
    the body (the bytes, or the text of the read error). *)
Record HttpResponse : Type := {
  StatusCode : Z;
  Body : string + string
}.

Section Proxy.

(** The state of everything remote. *)
Variable Remote : Type.

(** The port layer client.  Every operation answers with its payload or
    with the text of its error. *)
Record PortLayer : Type := {
  Scopes_AddContainer :
    string -> models.ScopesAddContainerConfig -> Remote -> (string + string) * Remote;
  Scopes_RemoveContainer :
    string -> string -> Remote -> option string * Remote;
  Tasks_Join :
    models.TaskJoinConfig -> Remote -> (models.iface + string) * Remote;
  Tasks_Bind :
    models.TaskBindConfig -> Remote -> (models.iface + string) * Remote
}.

(** [cache.ImageCache().Get] and [http.Client.Post]. *)
Variable cache_Get :
  string -> Remote -> option metadata.ImageConfig * option string.
Variable http_Post :
  string -> string -> Remote -> (HttpResponse + string) * Remote.

Record World : Type := {
  remote : Remote;
  trace : list Event
}.

Definition emit (ev : Event) : M World unit :=
  fun w => (tt, {| remote := remote w; trace := trace w ++ [ev] |}).

(** Send a request: the event is recorded, the remote state advances. *)
Definition call {A : Type} (ev : Event) (op : Remote -> A * Remote) : M World A :=
  fun w =>
    let '(a, r) := op (remote w) in
    (a, {| remote := r; trace := trace w ++ [ev] |}).

(** *** The image store *)

Record VicImageStore : Type := {
  storeClient : option PortLayer;
  personaAddr : string;
  storePortlayerAddr : string
}.

(** [PullImage] issues a pull rest call to the persona. *)
Definition PullImage (v : VicImageStore) (image tag username password : string)
  : M World (option error) :=
  let personaServer :=
    if String.eqb tag "" then
      "http://" +:+ personaAddr v +:+ "/v1.35/images/create?fromImage=" +:+ image
    else
      "http://" +:+ personaAddr v +:+ "/v1.35/images/create?fromImage=" +:+ image
        +:+ "&tag=" +:+ tag in
  let* _ := emit (Logf LInfo "POST %s" [OpString personaServer]) in
  let* r := call (HttpPost personaServer "application/json")
              (http_Post personaServer "application/json") in
  match r with
  | inr msg =>
      let* _ := emit (Logf LError "Error from docker pull: error = %s" [OpString msg]) in
      ret (Some (New (Lit msg)))
  | inl resp =>
      if negb (StatusCode resp =? 200)%Z then
        let msg := Sprintf "Error from docker pull: status = %d" [OpInt (StatusCode resp)] in
        let* _ := emit (Logf LError msg []) in
        ret (Some (Errorf msg []))
      else
        match Body resp with
        | inr rerr =>
            let msg := Sprintf "Error reading docker pull response: error = %s" [OpString rerr] in
            let* _ := emit (Logf LError msg []) in
            ret (Some (Errorf msg []))
        | inl body =>
            let* _ := emit (Logf LInfo "Response from docker pull: body = %s" [OpString body]) in
            ret None
        end
  end.

Definition lookup (idOrRef : string)
  : M World (option metadata.ImageConfig * option string) :=
  call (CacheGet idOrRef) (fun r => (cache_Get idOrRef r, r)).

(** [Get] returns an [ImageConfig].  If the config is not cached, the
    store can ask for a pull when [actuate] is set. *)
Definition Get (v : VicImageStore) (idOrRef tag : string) (actuate : bool)
  : M World (option metadata.ImageConfig * option error) :=
  let* (c, err) := lookup idOrRef in
  match err with
  | Some _ =>
      if actuate then
        let* err := PullImage v idOrRef tag "" "" in
        match err with
        | None =>
            let* (c', err') := lookup idOrRef in
            match err' with
            | Some msg => ret (None, Some (New (Lit msg)))
            | None => ret (c', None)
            end
        | Some _ => ret (c, None)
        end
      else ret (c, None)
  | None => ret (c, None)
  end.

(** *** The isolation proxy *)

Record VicIsolationProxy : Type := {
  client : option PortLayer;
  portlayerAddr : string
}.

(** A failed type assertion [handle, ok := x.(string)] leaves [handle]
    empty, and the empty handle is the operand of the message. *)
Definition CreateHandleTask (v : VicIsolationProxy)
  (handle id layerID : string) (config : IsolationContainerConfig)
  : M World (outcome (string * option error)) :=
  match client v with
  | None =>
      ret (Returned
             ("", Some (InternalServerError
                   "IsolationProxy.CreateContainerTask failed to create a portlayer client")))
  | Some pl =>
      let* _ := emit (LogConfig LInfo "*** CreateHandleTask - %#v" config) in
      match IsolationContainerConfigToTask id layerID config with
      | Panicked => ret Panicked
      | Returned task =>
          let* _ := emit (LogTask LDebug "dockerContainerCreateParamsToTask = %+v" task) in
          let plTaskParams :=
            {| models.Handle := models.IString handle;
               models.ID := models.ID task;
               models.Namespace := models.Namespace task;
               models.Path := models.Path task;
               models.Args := models.Args task;
               models.Env := models.Env task;
               models.WorkingDir := models.WorkingDir task;
               models.User := models.User task;
               models.Attach := models.Attach task;
               models.OpenStdin := models.OpenStdin task;
               models.Tty := models.Tty task;
               models.StopSignal := models.StopSignal task |} in
          let* _ := emit (LogTask LInfo "*** CreateContainerTask - params = %#v" plTaskParams) in
          let* responseJoin := call (TasksJoin plTaskParams) (Tasks_Join pl plTaskParams) in
          match responseJoin with
          | inr msg =>
              let* _ := emit (Logf LError "Unable to join primary task to container: %+v"
                                [OpString msg]) in
              ret (Returned ("", Some (InternalServerError msg)))
          | inl models.INotString =>
              ret (Returned
                     ("", Some (InternalServerError
                           (Sprintf "Type assertion failed on handle from task join: %#+v"
                              [OpString EmptyString]))))
          | inl (models.IString handle) =>
              let plBindParams :=
                {| models.BindHandle := handle; models.BindID := id |} in
              let* responseBind := call (TasksBind plBindParams) (Tasks_Bind pl plBindParams) in
              match responseBind with
              | inr msg =>
                  let* _ := emit (Logf LError "Unable to bind primary task to container: %+v"
                                    [OpString msg]) in
                  ret (Returned ("", Some (InternalServerError msg)))
              | inl models.INotString =>
                  ret (Returned
                         ("", Some (InternalServerError
                               (Sprintf "Type assertion failed on handle from task bind %#+v"
                                  [OpString EmptyString]))))
              | inl (models.IString handle) => ret (Returned (handle, None))
              end
          end
      end
  end.

(** The function [AddHandleToScope] defers once the scope join has
    succeeded: it reads the join's [err] and the current [handle] when the
    function returns. *)
Definition rollBack (pl : PortLayer) (err : option string)
  (handle : string) (netConf : models.NetworkConfig) : M World unit :=
  match err with
  | None => ret tt
  | Some _ =>
      let* err2 := call (ScopesRemoveContainer handle (models.NetworkName netConf))
                     (Scopes_RemoveContainer pl handle (models.NetworkName netConf)) in
      match err2 with
      | Some msg =>
          emit (Logf LWarn "could not roll back container add: %s" [OpString msg])
      | None => ret tt
      end
  end.

(** [AddHandleToScope] adds a container, referenced by handle, to a scope.
    If an error is returned, the returned handle should not be used. *)
Definition AddHandleToScope (v : VicIsolationProxy) (handle : string)
  (config : IsolationContainerConfig) : M World (string * option error) :=
  match client v with
  | None => ret ("", Some (NillPortlayerClientError "IsolationProxy"))
  | Some pl =>
      match networkConfigFromIsolationConfig config with
      | Some netConf =>
          let addConfig :=
            {| models.ScopeHandle := handle;
               models.ScopeNetworkConfig := netConf |} in
          let* r := call (ScopesAddContainer (models.NetworkName netConf) addConfig)
                      (Scopes_AddContainer pl (models.NetworkName netConf) addConfig) in
          match r with
          | inr msg =>
              let* _ := emit (Logf LError
                                "ContainerProxy.AddContainerToScope: Scopes error: %s"
                                [OpString msg]) in
              ret (handle, Some (InternalServerError msg))
          | inl payload =>
              let err : option string := None in
              let handle := payload in
              let* _ := rollBack pl err handle netConf in
              ret (handle, None)
          end
      | None => ret (handle, None)
      end
  end.

End Proxy.

Arguments remote {Remote} w.
Arguments trace {Remote} w.
Arguments Build_World {Remote} remote trace.
Arguments Scopes_AddContainer {Remote} p.
Arguments Scopes_RemoveContainer {Remote} p.
Arguments Tasks_Join {Remote} p.
Arguments Tasks_Bind {Remote} p.
Arguments Build_PortLayer {Remote}.
Arguments client {Remote} v.
Arguments portlayerAddr {Remote} v.
Arguments Build_VicIsolationProxy {Remote} client portlayerAddr.
Arguments personaAddr {Remote} v.
Arguments Build_VicImageStore {Remote}.
Arguments emit {Remote} ev.
Arguments call {Remote A} ev op.
Arguments rollBack {Remote} pl err handle netConf.
Arguments AddHandleToScope {Remote} v handle config.
Arguments CreateHandleTask {Remote} v handle id layerID config.
Arguments PullImage {Remote} http_Post v image tag username password.
Arguments lookup {Remote} cache_Get idOrRef.
Arguments Get {Remote} cache_Get http_Post v idOrRef tag actuate.

End proxy.

(** ** Package [proxy], continued: the other steps of the isolation proxy

    [CreateHandle], [Handle], [AddImageToHandle], [AddLoggingToHandle],
    [AddInteractionToHandle], [CommitHandle] and [SetState], with the services
    of the port layer client they call.  The proxy record is the one of
    [proxy]; its [client] field decides whether there is a client at all. *)
Module isolation.
Import Go.

(** The errors of [github.com/vmware/vic/lib/apiservers/engine/errors] the
    steps return. *)
Inductive error : Type :=
| NotFoundError (msg : text)
| ConflictError (msg : text)
| InternalServerError (msg : text)
| NillPortlayerClientError (caller : string).

(** What a port layer operation fails with: the typed responses the code
    switches on (not found, conflict, default with its payload message) or
    anything else; each with the text of its [Error()] method. *)
Inductive RemoteError : Type :=
| NotFound (text : string)
| Conflict (text : string)
| Default (message text : string)
| Other (text : string).

Definition Error (e : RemoteError) : string :=
  match e with
  | NotFound t | Conflict t | Default _ t | Other t => t
  end.

(** [models.ContainerCreateConfig] and [models.ImageJoinConfig], the fields
    the proxy sets. *)
Record ContainerCreateConfig : Type := {
  NumCpus : Z;
  MemoryMB : Z;
  Layer : string;
  Image : string;
  RepoName : string;
  Name : string;
  ImageStore : string;
  NetworkDisabled : bool;
  Hostname : string
}.

Record ImageJoinConfig : Type := {
  JoinHandle : string;
  DeltaID : string;
  ImageID : string;
  JoinRepoName : string
}.

(** [initIsolationConfig] returns a default config used to create the
    isolation unit handle.  The debug line it writes is emitted by its
    caller. *)
Definition initIsolationConfig (name repoName imageID layerID imageStore : string)
  : ContainerCreateConfig :=
  {| NumCpus := proxy.DefaultCPUs;
     MemoryMB := proxy.DefaultMemory;
     Layer := layerID;
     Image := imageID;
     RepoName := repoName;
     Name := name;
     ImageStore := imageStore;
     NetworkDisabled := true;
     Hostname := "test-kubelet" |}.

Inductive Event : Type :=
| ContainersCreate (config : ContainerCreateConfig)
| ContainersGet (id : string)
| StorageImageJoin (storeName id : string) (config : ImageJoinConfig)
| LoggingJoin (handle : string)
| InteractionJoin (handle : string)
| ContainersCommit (handle : string) (waitTime : option Z)
| ContainersStateChange (handle state : string)
| Logf (level : proxy.Level) (format : text) (operands : list operand)
| LogCreate (level : proxy.Level) (format : text) (config : ContainerCreateConfig).

Section Steps.

Variable Remote : Type.

(** Package [constants] of the provider is not part of this file: whether the
    kubelet runs in a VCH, and the host UUID it is configured with otherwise.
    [sys.UUID] reads the host's identity, or fails. *)
Variable RunningInVCH : bool.
Variable HostUUID : string.
Variable sys_UUID : Remote -> string + string.

(** The services of the port layer client: each answers with its payload or
    with its error. *)
Variable Containers_Create :
  ContainerCreateConfig -> Remote -> (string * string + RemoteError) * Remote.
Variable Containers_Get : string -> Remote -> (string + RemoteError) * Remote.
Variable Storage_ImageJoin :
  string -> string -> ImageJoinConfig -> Remote -> (models.iface + RemoteError) * Remote.
Variable Logging_LoggingJoin : string -> Remote -> (models.iface + RemoteError) * Remote.
Variable Interaction_InteractionJoin :
  string -> Remote -> (models.iface + RemoteError) * Remote.
Variable Containers_Commit :
  string -> option Z -> Remote -> (unit + RemoteError) * Remote.
Variable Containers_StateChange :
  string -> string -> Remote -> (string + RemoteError) * Remote.

Record World : Type := {
  remote : Remote;
  trace : list Event
}.

Definition emit (ev : Event) : M World unit :=
  fun w => (tt, {| remote := remote w; trace := trace w ++ [ev] |}).

Definition call {A : Type} (ev : Event) (op : Remote -> A * Remote) : M World A :=
  fun w =>
    let '(a, r) := op (remote w) in
    (a, {| remote := r; trace := trace w ++ [ev] |}).

(** The store name of the local host: [sys.UUID()] in a VCH, the configured
    UUID otherwise. *)
Definition hostUUID : M World (string + string) :=
  if RunningInVCH then fun w => (sys_UUID (remote w), w)
  else ret (inl HostUUID).

Definition CreateHandle (v : proxy.VicIsolationProxy Remote)
  : M World (string * string * option error) :=
  match proxy.client v with
  | None => ret ("", "", Some (NillPortlayerClientError "ContainerProxy"))
  | Some _ =>
      let* host := hostUUID in
      match host with
      | inr _ =>
          ret ("", "",
               Some (InternalServerError
                       "ContainerProxy.CreateContainerHandle got unexpected error getting VCH UUID"))
      | inl host =>
          let plCreateParams :=
            initIsolationConfig "" proxy.DummyRepoName proxy.DummyImage
              proxy.DummyLayerID host in
          let* _ := emit (LogCreate proxy.LDebug
                            "dockerContainerCreateParamsToPortlayer = %+v" plCreateParams) in
          let* createResults :=
            call (ContainersCreate plCreateParams) (Containers_Create plCreateParams) in
          match createResults with
          | inr (NotFound text) =>
              let cerr := Sprintf "No such image: %s" [OpString proxy.DummyImage] in
              let* _ := emit (Logf proxy.LError "%s (%s)" [OpText cerr; OpString text]) in
              ret ("", "", Some (NotFoundError cerr))
          | inr err => ret ("", "", Some (InternalServerError (Error err)))
          | inl (id, h) => ret (id, h, None)
          end
      end
  end.

(** [Handle] retrieves a handle to a VIC container. *)
Definition Handle (v : proxy.VicIsolationProxy Remote) (id name : string)
  : M World (string * option error) :=
  match proxy.client v with
  | None => ret ("", Some (NillPortlayerClientError "ContainerProxy"))
  | Some _ =>
      let* resp := call (ContainersGet id) (Containers_Get id) in
      match resp with
      | inr (NotFound _) => ret ("", Some (NotFoundError name))
      | inr (Default message _) => ret ("", Some (InternalServerError message))
      | inr err => ret ("", Some (InternalServerError (Error err)))
      | inl payload => ret (payload, None)
      end
  end.

(** The end of a join step: the error of the call, a payload that is no
    string (the empty handle is then the operand of the message), or the
    handle. *)
Definition joined (format : string) (response : models.iface + RemoteError)
  : string * option error :=
  match response with
  | inr err => ("", Some (InternalServerError (Error err)))
  | inl models.INotString =>
      ("", Some (InternalServerError (Sprintf format [OpString EmptyString])))
  | inl (models.IString handle) => (handle, None)
  end.

Definition AddImageToHandle (v : proxy.VicIsolationProxy Remote)
  (handle deltaID layerID imageID imageName : string)
  : M World (string * option error) :=
  match proxy.client v with
  | None =>
      ret ("", Some (InternalServerError
                       "ContainerProxy.AddImageToContainer failed to get the portlayer client"))
  | Some _ =>
      let* host := hostUUID in
      match host with
      | inr _ =>
          ret ("", Some (InternalServerError
                           "ContainerProxy.AddImageToContainer got unexpected error getting VCH UUID"))
      | inl host =>
          let config :=
            {| JoinHandle := handle; DeltaID := deltaID;
               ImageID := imageID; JoinRepoName := imageName |} in
          let* response :=
            call (StorageImageJoin host layerID config)
              (Storage_ImageJoin host layerID config) in
          ret (joined "Type assertion failed for %#+v" response)
      end
  end.

(** [AddLoggingToHandle] adds logging capability to the isolation vm,
    referenced by handle. *)
Definition AddLoggingToHandle (v : proxy.VicIsolationProxy Remote) (handle : string)
  : M World (string * option error) :=
  match proxy.client v with
  | None => ret ("", Some (NillPortlayerClientError "IsolationProxy"))
  | Some _ =>
      let* response := call (LoggingJoin handle) (Logging_LoggingJoin handle) in
      ret (joined "Type assertion failed for %#+v" response)
  end.

(** [AddInteractionToHandle] adds interaction capabilities to a container,
    referenced by handle. *)
Definition AddInteractionToHandle (v : proxy.VicIsolationProxy Remote) (handle : string)
  : M World (string * option error) :=
  match proxy.client v with
  | None => ret ("", Some (NillPortlayerClientError "IsolationProxy"))
  | Some _ =>
      let* response :=
        call (InteractionJoin handle) (Interaction_InteractionJoin handle) in
      ret (joined "Type assertion failed for %#+v" response)
  end.

Definition CommitHandle (v : proxy.VicIsolationProxy Remote)
  (handle containerID : string) (waitTime : Z) : M World (option error) :=
  match proxy.client v with
  | None => ret (Some (NillPortlayerClientError "IsolationProxy"))
  | Some _ =>
      let commitWait := if (0 <? waitTime)%Z then Some waitTime else None in
      let* r := call (ContainersCommit handle commitWait)
                  (Containers_Commit handle commitWait) in
      match r with
      | inr (NotFound _) => ret (Some (NotFoundError containerID))
      | inr (Conflict text) => ret (Some (ConflictError text))
      | inr (Default message _) => ret (Some (InternalServerError message))
      | inr (Other text) => ret (Some (InternalServerError text))
      | inl _ => ret None
      end
  end.

(** [SetState] adds the desired state of the isolation unit once the handle
    is committed. *)
Definition SetState (v : proxy.VicIsolationProxy Remote) (handle name state : string)
  : M World (string * option error) :=
  match proxy.client v with
  | None => ret ("", Some (NillPortlayerClientError "IsolationProxy"))
  | Some _ =>
      let* resp := call (ContainersStateChange handle state)
                     (Containers_StateChange handle state) in
      match resp with
      | inr (NotFound _) => ret ("", Some (NotFoundError name))
      | inr (Default message _) => ret ("", Some (InternalServerError message))
      | inr err => ret ("", Some (InternalServerError (Error err)))
      | inl payload => ret (payload, None)
      end
  end.

End Steps.

Arguments remote {Remote} w.
Arguments trace {Remote} w.
Arguments Build_World {Remote} remote trace.
Arguments emit {Remote} ev.
Arguments call {Remote A} ev op.
Arguments hostUUID {Remote} RunningInVCH HostUUID sys_UUID.
Arguments CreateHandle {Remote} RunningInVCH HostUUID sys_UUID Containers_Create v.
Arguments Handle {Remote} Containers_Get v id name.
Arguments AddImageToHandle {Remote} RunningInVCH HostUUID sys_UUID Storage_ImageJoin
  v handle deltaID layerID imageID imageName.
Arguments AddLoggingToHandle {Remote} Logging_LoggingJoin v handle.
Arguments AddInteractionToHandle {Remote} Interaction_InteractionJoin v handle.
Arguments CommitHandle {Remote} Containers_Commit v handle containerID waitTime.
Arguments SetState {Remote} Containers_StateChange v handle name state.

End isolation.

(** ** Package [vic], continued: the provider's configuration *)
Module config.
Import Go.

Record VicConfig : Type := {
  PersonaAddr : string;
  PortlayerAddr : string
}.

Definition zeroVicConfig : VicConfig :=
  {| PersonaAddr := ""; PortlayerAddr := "" |}.

Definition personaAddrEnv : string := "PERSONA_ADDR".
Definition portlayerAddrEnv : string := "PORTLAYER_ADDR".

Inductive Event : Type :=
| ReadFile (path : string)
| Getenv (key : string)
| LogError (err : Go.error).

Section Load.

(** The host: its files and its environment.  [ioutil.ReadFile] answers with
    the contents or the text of its error; [yaml.Unmarshal] fills the config
    it is given and may fail, leaving it as far as it got. *)
Variable Host : Type.
Variable ioutil_ReadFile : string -> Host -> string + string.
Variable yaml_Unmarshal : string -> VicConfig -> VicConfig * option string.
Variable os_Getenv : string -> Host -> string.

Record World : Type := {
  host : Host;
  trace : list Event
}.

Definition emit (ev : Event) : M World unit :=
  fun w => (tt, {| host := host w; trace := trace w ++ [ev] |}).

Definition ask {A : Type} (ev : Event) (read : Host -> A) : M World A :=
  fun w => (read (host w), {| host := host w; trace := trace w ++ [ev] |}).

(** [loadConfigFile] writes through [v] only when the file was read and
    parsed: the result is [v] as it is left, and the error. *)
Definition loadConfigFile (v : VicConfig) (configFile : string)
  : M World (VicConfig * option Go.error) :=
  let* contents := ask (ReadFile configFile) (ioutil_ReadFile configFile) in
  match contents with
  | inr msg => ret (v, Some (New (Lit msg)))
  | inl contents =>
      match yaml_Unmarshal contents zeroVicConfig with
      | (_, Some msg) =>
          let err :=
            Errorf "Unable to unmarshal vic virtual kubelet configfile: %s"
              [OpString msg] in
          let* _ := emit (LogError err) in
          ret (v, Some err)
      | (config, None) => ret (config, None)
      end
  end.

Definition loadConfigFromEnv (v : VicConfig) : M World VicConfig :=
  let* persona := ask (Getenv personaAddrEnv) (os_Getenv personaAddrEnv) in
  let* portlayer := ask (Getenv portlayerAddrEnv) (os_Getenv portlayerAddrEnv) in
  ret {| PersonaAddr := persona; PortlayerAddr := portlayer |}.

(** [NewVicConfig] drops the error of [loadConfigFile]. *)
Definition NewVicConfig (configFile : string) : M World VicConfig :=
  let config := zeroVicConfig in
  if String.eqb configFile "" then loadConfigFromEnv config
  else
    let* r := loadConfigFile config configFile in
    ret (fst r).

End Load.

Arguments host {Host} w.
Arguments trace {Host} w.
Arguments Build_World {Host} host trace.
Arguments loadConfigFile {Host} ioutil_ReadFile yaml_Unmarshal v configFile.
Arguments loadConfigFromEnv {Host} os_Getenv v.
Arguments NewVicConfig {Host} ioutil_ReadFile yaml_Unmarshal os_Getenv configFile.

End config.


(** ** The vocabulary of the properties *)

(** The key of an environment entry, as [setEnvFromImageConfig] reads it: the
    text before the first [=]. *)
Definition envKey (e : string) : string := hd "" (Go.SplitN e "=" 2).

(** An entry that sets [PATH], as [setPathFromImageConfig] recognises it. *)
Definition isPath (e : string) : bool := Go.HasPrefix e "PATH=".

(** An entry whose key is [TERM]. *)
Definition isTerm (e : string) : bool := String.eqb (envKey e) "TERM".

(** The entries of [env] that satisfy [p], in order. *)
Definition entries (p : string -> bool) (env : list string) : list string :=
  List.filter p env.

(** What the spec asks of the merged environment: one [PATH] entry, a [TERM]
    entry under [tty], and the user's [PATH] and [TERM] where the user set
    them. *)
Definition envMergeSpec (tty : bool) (env imgEnv : list string) : Prop :=
  let merged := vic.setEnvFromImageConfig tty env imgEnv in
  length (entries isPath merged) = 1 /\
  (tty = true -> entries isTerm merged <> []) /\
  (entries isPath env <> [] -> entries isPath merged = entries isPath env) /\
  (entries isTerm env <> [] -> entries isTerm merged = entries isTerm env).

(** The host config [validateCreateConfig] works on: the caller's, or the
    fresh one it installs when the caller gave none. *)
Definition hostConfigOf (config : types.ContainerCreateConfig) : container.HostConfig :=
  match types.HostConfig config with
  | Some hc => hc
  | None => container.zeroHostConfig
  end.

(** The first CPU named by [--cpuset-cpus], as text. *)
Definition firstCpu (hc : container.HostConfig) : string :=
  hd "" (Go.Split (container.CpusetCpus hc) ",").

(** What the spec asks of the CPU count: the minimum, for an input that is
    not positive or does not parse. *)
Definition cpuFloorSpec (config : types.ContainerCreateConfig) : Prop :=
  let hc := hostConfigOf config in
  ((container.CPUCount hc <= 0)%Z \/ (exists e, Go.Atoi (firstCpu hc) = inr e)) ->
  container.CPUCount (hostConfigOf (fst (vic.validateCreateConfig config))) = vic.MinCPUs.

(** A create config with the given CPU count, cpuset and memory. *)
Definition createConfigWith (cpus : Z) (cpuset : string) (memory : Z)
  : types.ContainerCreateConfig :=
  {| types.Name := "c";
     types.Config := Some container.zeroConfig;
     types.HostConfig :=
       Some {| container.CPUCount := cpus;
               container.CpusetCpus := cpuset;
               container.Memory := memory |} |}.

(** A kube container spec with other [Args] and [Env]. *)
Definition withArgsEnv (cSpec : v1.Container) (args : list string) (env : list v1.EnvVar)
  : v1.Container :=
  {| v1.Name := v1.Name cSpec;
     v1.Image := v1.Image cSpec;
     v1.Command := v1.Command cSpec;
     v1.Args := args;
     v1.WorkingDir := v1.WorkingDir cSpec;
     v1.Env := env;
     v1.Resources := v1.Resources cSpec;
     v1.Stdin := v1.Stdin cSpec;
     v1.StdinOnce := v1.StdinOnce cSpec;
     v1.TTY := v1.TTY cSpec |}.

(** The task of [ic] runs [path] with [args]. *)
Definition resolvesTo (id layerID : string) (ic : proxy.IsolationContainerConfig)
  (path : string) (args : list string) : Prop :=
  exists task,
    proxy.IsolationContainerConfigToTask id layerID ic = Go.Returned task /\
    models.Path task = path /\ models.Args task = args.

(** An isolation config with the given command, entrypoint, interactivity
    flags and port map. *)
Definition isolationConfigWith (cmd entrypoint : list string)
  (attach stdinOnce openStdin tty : bool) (ports : gmap string proxy.PortBinding)
  : proxy.IsolationContainerConfig :=
  {| proxy.ID := "id"; proxy.ImageID := "image"; proxy.LayerID := "layer";
     proxy.ImageName := "busybox"; proxy.Name := "c"; proxy.Namespace := "default";
     proxy.Cmd := cmd; proxy.Path := ""; proxy.Entrypoint := entrypoint;
     proxy.Env := []; proxy.WorkingDir := "/"; proxy.User := ""; proxy.StopSignal := "";
     proxy.Attach := attach; proxy.StdinOnce := stdinOnce;
     proxy.OpenStdin := openStdin; proxy.Tty := tty;
     proxy.CPUCount := 2; proxy.Memory := 2048;
     proxy.PortMap := ports |}.

(** The world before anything was asked of it. *)
Definition start {Remote : Type} (r : Remote) : proxy.World Remote :=
  {| proxy.remote := r; proxy.trace := [] |}.

(** The task-join requests, the scope joins and the scope removals of a
    trace. *)
Definition joinRequests (t : list proxy.Event) : list models.TaskJoinConfig :=
  omap (fun ev => match ev with proxy.TasksJoin c => Some c | _ => None end) t.

Definition scopeJoins (t : list proxy.Event) : list proxy.Event :=
  List.filter (fun ev => match ev with proxy.ScopesAddContainer _ _ => true | _ => false end) t.

Definition scopeRemovals (t : list proxy.Event) : list proxy.Event :=
  List.filter (fun ev => match ev with proxy.ScopesRemoveContainer _ _ => true | _ => false end) t.

(** The scope join [AddHandleToScope] sends for [handle] and [config]. *)
Definition scopeJoinOf (handle : string) (config : proxy.IsolationContainerConfig)
  : models.ScopesAddContainerConfig :=
  {| models.ScopeHandle := handle;
     models.ScopeNetworkConfig :=
       {| models.NetworkName := "default";
          models.Ports :=
            (fun kv : string * proxy.PortBinding =>
               proxy.HostPort (snd kv) +:+ ":" +:+ fst kv)
              <$> map_to_list (proxy.PortMap config) |} |}.

(** What the spec asks of [AddHandleToScope] on an empty port map: the handle
    comes back unchanged, and no scope join is sent. *)
Definition scopeNoopSpec {Remote : Type} (v : proxy.VicIsolationProxy Remote)
  (handle : string) (config : proxy.IsolationContainerConfig)
  (w : proxy.World Remote) : Prop :=
  proxy.PortMap config = ∅ ->
  fst (proxy.AddHandleToScope v handle config w) = (handle, None) /\
  scopeJoins (proxy.trace (snd (proxy.AddHandleToScope v handle config w)))
  = scopeJoins (proxy.trace w).

(** What the spec asks of [AddHandleToScope] when the scope join fails: one
    removal, then the error of the join. *)
Definition rollbackSpec {Remote : Type} (v : proxy.VicIsolationProxy Remote)
  (handle : string) (config : proxy.IsolationContainerConfig)
  (w : proxy.World Remote) : Prop :=
  forall pl msg r',
    proxy.client v = Some pl ->
    proxy.PortMap config <> ∅ ->
    proxy.Scopes_AddContainer pl "default" (scopeJoinOf handle config) (proxy.remote w)
    = (inr msg, r') ->
    snd (fst (proxy.AddHandleToScope v handle config w))
    = Some (Go.InternalServerError (Go.Lit msg)) /\
    length (scopeRemovals (proxy.trace (snd (proxy.AddHandleToScope v handle config w))))
    = S (length (scopeRemovals (proxy.trace w))).

(** A port layer that accepts every request, and one whose scope operations
    are refused.  The remote state counts the requests served. *)
Definition acceptingLayer : proxy.PortLayer nat :=
  {| proxy.Scopes_AddContainer := fun _ _ n => (inl "handle-scoped", S n);
     proxy.Scopes_RemoveContainer := fun _ _ n => (None, S n);
     proxy.Tasks_Join := fun _ n => (inl (models.IString "handle-joined"), S n);
     proxy.Tasks_Bind := fun _ n => (inl (models.IString "handle-bound"), S n) |}.

Definition refusingLayer : proxy.PortLayer nat :=
  {| proxy.Scopes_AddContainer := fun _ _ n => (inr "scope join refused", S n);
     proxy.Scopes_RemoveContainer := fun _ _ n => (Some "scope removal refused", S n);
     proxy.Tasks_Join := fun _ n => (inl (models.IString "handle-joined"), S n);
     proxy.Tasks_Bind := fun _ n => (inl (models.IString "handle-bound"), S n) |}.

Definition proxyOver (pl : proxy.PortLayer nat) : proxy.VicIsolationProxy nat :=
  {| proxy.client := Some pl; proxy.portlayerAddr := "127.0.0.1:2380" |}.

(** The port map of a web server: container port 80 on host port 8080. *)
Definition webPorts : gmap string proxy.PortBinding :=
  {[ "80" := {| proxy.HostIP := "0.0.0.0"; proxy.HostPort := "8080" |} ]}.

(** An image cache that holds nothing, and a persona that cannot be
    reached. *)
Definition coldCache (idOrRef : string) (n : nat)
  : option metadata.ImageConfig * option string :=
  (None, Some "image not found in cache").

Definition unreachablePersona (url contentType : string) (n : nat)
  : (proxy.HttpResponse + string) * nat :=
  (inr "connection refused", S n).

(** A persona that answers 200 without the cache learning of the image. *)
Definition forgetfulPersona (url contentType : string) (n : nat)
  : (proxy.HttpResponse + string) * nat :=
  (inl {| proxy.StatusCode := 200; proxy.Body := inl "pulled" |}, S n).

Definition imageStoreAt (addr : string) : proxy.VicImageStore nat :=
  {| proxy.storeClient := None; proxy.personaAddr := addr;
     proxy.storePortlayerAddr := "127.0.0.1:2380" |}.

(** The images the pod proxy asked its store for, and the operands of the
    failures it logged. *)
Definition imagesAsked (t : list vic.Event) : list string :=
  omap (fun ev => match ev with vic.ImageStoreGet i => Some i | _ => None end) t.

Definition failuresLogged (t : list vic.Event) : list (list string) :=
  omap (fun ev => match ev with vic.LogErrorf _ ops => Some ops | _ => None end) t.

(** An image store that answers every request with an error or with an image
    that has a config: nothing [createContainer] could panic on. *)
Definition answersOrFails {Store : Type}
  (get : string -> Store -> (option metadata.ImageConfig * option string) * Store)
  : Prop :=
  forall image s,
    match fst (get image s) with
    | (_, Some _) => True
    | (Some img, None) => metadata.Config img <> None
    | (None, None) => False
    end.

(** A store that knows every image but [missing]. *)
Definition storeWithoutMissing (image : string) (s : unit)
  : (option metadata.ImageConfig * option string) * unit :=
  if String.eqb image "missing" then ((None, Some "no such image"), s)
  else ((Some {| metadata.ImageID := image;
                 metadata.Config := Some container.zeroConfig |}, None), s).

Definition kubeContainer (name image : string) : v1.Container :=
  {| v1.Name := name; v1.Image := image; v1.Command := []; v1.Args := [];
     v1.WorkingDir := ""; v1.Env := [];
     v1.Resources := {| v1.Limits := ∅; v1.Requests := ∅ |};
     v1.Stdin := false; v1.StdinOnce := false; v1.TTY := false |}.

(** A pod whose first and last containers name an image the store lacks. *)
Definition threeContainers : v1.Pod :=
  {| v1.PodName := "web";
     v1.Containers :=
       [kubeContainer "a" "missing"; kubeContainer "b" "busybox";
        kubeContainer "c" "missing"] |}.

(** ** The vocabulary of the further properties *)

(** What [storeWithoutMissing] answers, whatever its state. *)
Definition answerWithoutMissing (image : string)
  : option metadata.ImageConfig * option string :=
  if String.eqb image "missing" then (None, Some "no such image")
  else (Some {| metadata.ImageID := image;
                metadata.Config := Some container.zeroConfig |}, None).

(** Whether an answer of the image store carries an error. *)
Definition failed (a : option metadata.ImageConfig * option string) : bool :=
  match snd a with Some _ => true | None => false end.

(** A store that swallows its failures: a nil image and a nil error. *)
Definition silentStore (image : string) (s : unit)
  : (option metadata.ImageConfig * option string) * unit :=
  ((None, None), s).

(** The address [PullImage] posts to. *)
Definition pullURL (persona image tag : string) : string :=
  if String.eqb tag "" then
    "http://" +:+ persona +:+ "/v1.35/images/create?fromImage=" +:+ image
  else
    "http://" +:+ persona +:+ "/v1.35/images/create?fromImage=" +:+ image
      +:+ "&tag=" +:+ tag.

(** The HTTP posts and the task binds of a trace. *)
Definition posts (t : list proxy.Event) : list (string * string) :=
  omap (fun ev => match ev with proxy.HttpPost url ct => Some (url, ct) | _ => None end) t.

Definition bindRequests (t : list proxy.Event) : list models.TaskBindConfig :=
  omap (fun ev => match ev with proxy.TasksBind c => Some c | _ => None end) t.

(** An image cache that holds busybox only. *)
Definition busyboxCache (idOrRef : string) (n : nat)
  : option metadata.ImageConfig * option string :=
  if String.eqb idOrRef "busybox"
  then (Some {| metadata.ImageID := "busybox";
                metadata.Config := Some container.zeroConfig |}, None)
  else (None, Some "image not found in cache").

(** The requests of a trace of the isolation proxy: everything but the log
    lines. *)
Definition requests (t : list isolation.Event) : list isolation.Event :=
  List.filter
    (fun ev => match ev with
               | isolation.Logf _ _ _ | isolation.LogCreate _ _ _ => false
               | _ => true
               end) t.

(** The host identity the steps work with: [sys.UUID()] in a VCH, the
    configured UUID otherwise. *)
Definition hostOf {Remote : Type} (RunningInVCH : bool) (HostUUID : string)
  (sys_UUID : Remote -> string + string) (r : Remote) : string + string :=
  if RunningInVCH then sys_UUID r else inl HostUUID.

(** Port layer services for the examples: the remote state counts the
    requests served. *)
Definition uuidKnown (n : nat) : string + string := inl "vch-uuid".
Definition uuidUnknown (n : nat) : string + string := inr "no system uuid".

Definition createAccepted (config : isolation.ContainerCreateConfig) (n : nat)
  : (string * string + isolation.RemoteError) * nat :=
  (inl ("container-1", "handle-0"), S n).

Definition imageJoinAccepted (storeName id : string) (config : isolation.ImageJoinConfig)
  (n : nat) : (models.iface + isolation.RemoteError) * nat :=
  (inl (models.IString "handle-image"), S n).

Definition joinAccepted (handle : string) (n : nat)
  : (models.iface + isolation.RemoteError) * nat :=
  (inl (models.IString "handle-next"), S n).

Definition joinMalformed (handle : string) (n : nat)
  : (models.iface + isolation.RemoteError) * nat :=
  (inl models.INotString, S n).

Definition commitAccepted (handle : string) (waitTime : option Z) (n : nat)
  : (unit + isolation.RemoteError) * nat :=
  (inl tt, S n).

Definition commitUnknown (handle : string) (waitTime : option Z) (n : nat)
  : (unit + isolation.RemoteError) * nat :=
  (inr (isolation.NotFound "[POST /containers/commit][404] commitNotFound"), S n).

Definition getUnknown (id : string) (n : nat)
  : (string + isolation.RemoteError) * nat :=
  (inr (isolation.NotFound "[GET /containers/id][404] getNotFound"), S n).

Definition stateChangeDefault (handle state : string) (n : nat)
  : (string + isolation.RemoteError) * nat :=
  (inr (isolation.Default "invalid state" "[PUT /containers][500] stateChange default"),
   S n).

(** The world of the isolation proxy before anything was asked of it. *)
Definition begin {Remote : Type} (r : Remote) : isolation.World Remote :=
  {| isolation.remote := r; isolation.trace := [] |}.

(** The environment variables and the files a trace of the configuration
    asked for. *)
Definition envReads (t : list config.Event) : list string :=
  omap (fun ev => match ev with config.Getenv key => Some key | _ => None end) t.

Definition fileReads (t : list config.Event) : list string :=
  omap (fun ev => match ev with config.ReadFile path => Some path | _ => None end) t.

(** A host with one config file and nothing in its environment; a parser
    that accepts one text only, and fails half way on any other. *)
Definition oneFile (path : string) (h : unit) : string + string :=
  if String.eqb path "/etc/vic.yaml" then inl "persona-server: p:2376"
  else inr "no such file".

Definition strictParser (contents : string) (target : config.VicConfig)
  : config.VicConfig * option string :=
  if String.eqb contents "persona-server: p:2376"
  then ({| config.PersonaAddr := "p:2376";
           config.PortlayerAddr := config.PortlayerAddr target |}, None)
  else ({| config.PersonaAddr := "half";
           config.PortlayerAddr := config.PortlayerAddr target |},
        Some "yaml: line 2: could not find expected ':'").

Definition emptyEnv (key : string) (h : unit) : string := "".

(** ** Proof steps shared by the sections below *)

Ltac split_ands := repeat match goal with |- _ /\ _ => split end.

(** Unfold one layer of a computation over the proxy's world, or over the
    pod proxy's. *)
Ltac step_world :=
  unfold Go.bind, Go.ret, proxy.call, proxy.emit; cbn [proxy.remote proxy.trace fst snd].

Ltac step_pod :=
  unfold Go.bind, Go.ret, vic.callImageStoreGet, vic.emit;
  cbn [vic.store vic.trace fst snd].

Ltac step_iso :=
  unfold Go.bind, Go.ret, isolation.call, isolation.emit;
  cbn [isolation.remote isolation.trace fst snd].

(** ** Strings *)

Lemma prefix_append (p s : string) :
  String.prefix p s = true -> exists r, s = p +:+ r.
Proof.
  revert s. induction p as [|a p IH]; intros s.
  - intros _. now exists s.
  - destruct s as [|b s]; cbn [String.prefix]; [discriminate|].
    destruct (ascii_dec a b) as [->|]; [|discriminate].
    intros H. destruct (IH s H) as [r ->]. now exists r.
Qed.

Lemma isPath_envKey (e : string) : isPath e = true -> envKey e = "PATH".
Proof.
  unfold isPath, Go.HasPrefix. intros H.
  destruct (prefix_append _ _ H) as [r ->]. reflexivity.
Qed.

Lemma isPath_not_isTerm (e : string) : isPath e = true -> isTerm e = false.
Proof.
  intros H. unfold isTerm. rewrite (isPath_envKey e H). reflexivity.
Qed.

Lemma recordEnv_insert (m : gmap string string) (e : string) :
  exists v, vic.recordEnv m e = <[envKey e := v]> m.
Proof. unfold vic.recordEnv, envKey. eauto. Qed.

(** The keys of [containerEnv] are the keys of the entries it was filled
    from. *)
Lemma containerEnv_keys (env : list string) (m : gmap string string) (k : string) :
  is_Some (foldl vic.recordEnv m env !! k) <->
  is_Some (m !! k) \/ In k (map envKey env).
Proof.
  revert m. induction env as [|e env IH]; intros m; simpl.
  - tauto.
  - rewrite IH. destruct (recordEnv_insert m e) as [v ->].
    rewrite lookup_insert. destruct (decide (envKey e = k)) as [->|Hne].
    + split; [intros _|intros _; left; eauto]. right. now left.
    + split.
      * intros [H|H]; [now left | right; now right].
      * intros [H|[H|H]]; [now left | congruence | now right].
Qed.

Lemma copyImageEnv_filter (cE : gmap string string) (imgEnv env : list string) :
  foldl (vic.copyImageEnv cE) env imgEnv =
  env ++ List.filter (fun e => match cE !! envKey e with Some _ => false | None => true end) imgEnv.
Proof.
  revert env. induction imgEnv as [|e imgEnv IH]; intros env; simpl.
  - now rewrite app_nil_r.
  - rewrite IH. unfold vic.copyImageEnv. fold (envKey e).
    destruct (cE !! envKey e); [reflexivity|].
    now rewrite <- app_assoc.
Qed.

(** ** The environment merge *)

Lemma entries_app (p : string -> bool) (a b : list string) :
  entries p (a ++ b) = entries p a ++ entries p b.
Proof. apply List.filter_app. Qed.

Lemma entries_nonempty (p : string -> bool) (l : list string) :
  entries p l <> [] <-> exists e, In e l /\ p e = true.
Proof.
  unfold entries. split.
  - destruct (List.filter p l) as [|e t] eqn:E; [congruence|]. intros _.
    exists e. apply List.filter_In. rewrite E. now left.
  - intros [e He] E. apply List.filter_In in He. rewrite E in He. destruct He.
Qed.

Lemma entries_empty (p : string -> bool) (l : list string) :
  (forall e, In e l -> p e = false) -> entries p l = [].
Proof.
  intros H. destruct (entries p l) as [|e t] eqn:E; [reflexivity|].
  assert (He : In e (entries p l)) by (rewrite E; now left).
  apply List.filter_In in He. destruct He as [Hin Hp].
  rewrite (H e Hin) in Hp. discriminate.
Qed.

Lemma existsb_entries (p : string -> bool) (l : list string) :
  existsb p l = true <-> entries p l <> [].
Proof. rewrite entries_nonempty. apply existsb_exists. Qed.

(** The two ways [setPathFromImageConfig] ends: the user's environment as it
    is, or with one [PATH] entry appended. *)
Lemma setPathFromImageConfig_cases (env imgEnv : list string) :
  (entries isPath env <> [] /\ vic.setPathFromImageConfig env imgEnv = env) \/
  (entries isPath env = [] /\
   exists v, isPath v = true /\ vic.setPathFromImageConfig env imgEnv = env ++ [v]).
Proof.
  unfold vic.setPathFromImageConfig. fold isPath.
  destruct (existsb isPath env) eqn:E.
  - left. split; [now apply existsb_entries | reflexivity].
  - right. split.
    + destruct (entries isPath env) eqn:E'; [reflexivity|].
      assert (H : existsb isPath env = true) by (apply existsb_entries; congruence).
      congruence.
    + destruct (find isPath imgEnv) as [v|] eqn:F.
      * exists v. split; [|reflexivity]. now apply find_some in F.
      * eexists. split; [|reflexivity]. reflexivity.
Qed.

(** The merged environment: the environment with its [PATH], the injected
    [TERM] if any, then the image's entries whose key is new. *)
Lemma setEnvFromImageConfig_shape (tty : bool) (env imgEnv : list string) :
  let env1 := vic.setPathFromImageConfig env imgEnv in
  let cE : gmap string string := foldl vic.recordEnv ∅ env1 in
  vic.setEnvFromImageConfig tty env imgEnv =
  env1
    ++ (if tty then match cE !! "TERM" with Some _ => [] | None => ["TERM=xterm"] end
        else [])
    ++ List.filter (fun e => match cE !! envKey e with Some _ => false | None => true end)
         imgEnv.
Proof.
  intros env1 cE. unfold vic.setEnvFromImageConfig. fold env1. fold cE.
  rewrite copyImageEnv_filter.
  destruct tty; [destruct (cE !! "TERM")|]; simpl;
    rewrite <- ?app_assoc, ?app_nil_r; reflexivity.
Qed.

(** An image entry whose key the environment already has is not copied. *)
Lemma known_key_not_copied (p : string -> bool) (k : string)
  (env1 imgEnv : list string) :
  (forall e, p e = true -> envKey e = k) ->
  In k (map envKey env1) ->
  entries p
    (List.filter
       (fun e => match (foldl vic.recordEnv ∅ env1 : gmap string string) !! envKey e with
                 | Some _ => false
                 | None => true
                 end) imgEnv) = [].
Proof.
  intros Hp Hk. apply entries_empty. intros e He.
  apply List.filter_In in He. destruct He as [_ He].
  destruct (p e) eqn:E; [|reflexivity].
  rewrite (Hp e E) in He.
  assert (Hs : is_Some ((foldl vic.recordEnv ∅ env1 : gmap string string) !! k))
    by (apply containerEnv_keys; now right).
  destruct Hs as [v Hv]. rewrite Hv in He. discriminate.
Qed.

Lemma isTerm_envKey (e : string) : isTerm e = true -> envKey e = "TERM".
Proof. unfold isTerm. apply String.eqb_eq. Qed.

Lemma key_of_entry (p : string -> bool) (k : string) (l : list string) :
  (forall e, p e = true -> envKey e = k) ->
  entries p l <> [] -> In k (map envKey l).
Proof.
  intros Hp H. apply entries_nonempty in H. destruct H as [e [Hin He]].
  rewrite <- (Hp e He). now apply in_map.
Qed.

(** The [PATH] entries of the merged environment are those of the
    environment after [setPathFromImageConfig]. *)
Lemma merged_path_entries (tty : bool) (env imgEnv : list string) :
  entries isPath (vic.setEnvFromImageConfig tty env imgEnv) =
  entries isPath (vic.setPathFromImageConfig env imgEnv).
Proof.
  rewrite setEnvFromImageConfig_shape. rewrite !entries_app.
  rewrite (known_key_not_copied isPath "PATH").
  - rewrite app_nil_r.
    destruct tty; [|now rewrite app_nil_r].
    match goal with |- context [match ?x with _ => _ end] => destruct x end;
      now rewrite app_nil_r.
  - exact isPath_envKey.
  - apply (key_of_entry isPath); [exact isPath_envKey|].
    destruct (setPathFromImageConfig_cases env imgEnv) as [[H ->]|[_ [v [Hv ->]]]];
      [exact H|].
    apply entries_nonempty. exists v. split; [|exact Hv].
    apply in_or_app. right. now left.
Qed.

(** The [TERM] entries of the merged environment when the user set one. *)
Lemma merged_term_entries (tty : bool) (env imgEnv : list string) :
  entries isTerm env <> [] ->
  entries isTerm (vic.setEnvFromImageConfig tty env imgEnv) = entries isTerm env.
Proof.
  intros Hterm.
  assert (Hkey : In "TERM" (map envKey (vic.setPathFromImageConfig env imgEnv))).
  { apply (key_of_entry isTerm); [exact isTerm_envKey|].
    destruct (setPathFromImageConfig_cases env imgEnv) as [[_ ->]|[_ [v [_ ->]]]];
      [exact Hterm|].
    rewrite entries_app. intros E. apply app_eq_nil in E. tauto. }
  assert (Hsome : is_Some ((foldl vic.recordEnv ∅ (vic.setPathFromImageConfig env imgEnv)
                            : gmap string string) !! "TERM"))
    by (apply containerEnv_keys; now right).
  rewrite setEnvFromImageConfig_shape. rewrite !entries_app.
  rewrite (known_key_not_copied isTerm "TERM" _ _ isTerm_envKey Hkey).
  destruct Hsome as [x Hx]. rewrite Hx.
  replace (entries isTerm (if tty then [] else [])) with (@nil string)
    by (now destruct tty).
  rewrite !app_nil_r.
  destruct (setPathFromImageConfig_cases env imgEnv) as [[_ ->]|[_ [v [Hv ->]]]];
    [reflexivity|].
  rewrite entries_app. unfold entries at 2. simpl.
  rewrite (isPath_not_isTerm v Hv). now rewrite app_nil_r.
Qed.

(** Under [tty] the merged environment has an entry whose key is [TERM]. *)
Lemma merged_has_term (env imgEnv : list string) :
  entries isTerm (vic.setEnvFromImageConfig true env imgEnv) <> [].
Proof.
  rewrite setEnvFromImageConfig_shape. rewrite !entries_app.
  set (env1 := vic.setPathFromImageConfig env imgEnv).
  destruct ((foldl vic.recordEnv ∅ env1 : gmap string string) !! "TERM") as [x|] eqn:E.
  - assert (Hin : In "TERM" (map envKey env1)).
    { assert (Hs : is_Some ((foldl vic.recordEnv ∅ env1 : gmap string string) !! "TERM"))
        by (rewrite E; eauto).
      apply containerEnv_keys in Hs. destruct Hs as [Hs|Hs]; [|exact Hs].
      rewrite lookup_empty in Hs. destruct Hs as [? Hs]. discriminate. }
    apply in_map_iff in Hin. destruct Hin as [e [Hk Hin]].
    intros H. apply app_eq_nil in H. destruct H as [H _].
    revert H. apply entries_nonempty. exists e. split; [exact Hin|].
    unfold isTerm. rewrite Hk. reflexivity.
  - intros H. apply app_eq_nil in H. destruct H as [_ H].
    apply app_eq_nil in H. destruct H as [H _]. discriminate.
Qed.

(** C6, as the code has it: the merged environment (setEnvFromImageConfig,
    which starts with setPathFromImageConfig) has at least one PATH entry --
    exactly one unless the user's environment already holds several, which
    are all kept -- and under tty an entry whose key is TERM; where the user's
    environment sets PATH (or TERM), the PATH (or TERM) entries of the result
    are exactly the user's, whatever the image's environment holds. *)
Theorem setEnvFromImageConfig_merge (tty : bool) (env imgEnv : list string) :
  let merged := vic.setEnvFromImageConfig tty env imgEnv in
  length (entries isPath merged) = Nat.max 1 (length (entries isPath env)) /\
  (tty = true -> entries isTerm merged <> []) /\
  (entries isPath env <> [] -> entries isPath merged = entries isPath env) /\
  (entries isTerm env <> [] -> entries isTerm merged = entries isTerm env).
Proof.
  cbv zeta. repeat split.
  - rewrite merged_path_entries.
    destruct (setPathFromImageConfig_cases env imgEnv) as [[H ->]|[H [v [Hv ->]]]].
    + destruct (entries isPath env); [congruence|]. simpl. lia.
    + rewrite entries_app, H. unfold entries. simpl. fold (isPath v). now rewrite Hv.
  - intros ->. apply merged_has_term.
  - intros H. rewrite merged_path_entries.
    destruct (setPathFromImageConfig_cases env imgEnv) as [[_ ->]|[H' _]];
      [reflexivity | congruence].
  - apply merged_term_entries.
Qed.

(** A user environment with a [PATH] and a [TERM], an image with both and one
    more variable, a terminal requested. *)
Lemma setEnvFromImageConfig_merge_witness :
  let env := ["PATH=/opt/bin"; "TERM=vt100"] in
  let imgEnv := ["PATH=/usr/bin"; "TERM=linux"; "LANG=C"] in
  let merged := vic.setEnvFromImageConfig true env imgEnv in
  merged = ["PATH=/opt/bin"; "TERM=vt100"; "LANG=C"] /\
  length (entries isPath merged) = 1 /\
  entries isTerm merged <> [] /\
  entries isPath merged = ["PATH=/opt/bin"] /\
  entries isTerm merged = ["TERM=vt100"].
Proof.
  cbv zeta.
  destruct (setEnvFromImageConfig_merge true
              ["PATH=/opt/bin"; "TERM=vt100"]
              ["PATH=/usr/bin"; "TERM=linux"; "LANG=C"]) as [H1 [H2 [H3 H4]]].
  split; [vm_compute; reflexivity|].
  split; [exact H1|].
  split; [apply H2; reflexivity|].
  split; [apply H3; vm_compute; discriminate | apply H4; vm_compute; discriminate].
Defined.

(** C6, as the spec words it, fails on a user environment that holds two PATH
    entries: both are kept. *)
Lemma setEnvFromImageConfig_two_paths :
  vic.setEnvFromImageConfig false ["PATH=/a"; "PATH=/b"] [] = ["PATH=/a"; "PATH=/b"] /\
  ~ envMergeSpec false ["PATH=/a"; "PATH=/b"] [].
Proof.
  split; [vm_compute; reflexivity|].
  unfold envMergeSpec. intros [H _]. vm_compute in H. discriminate.
Qed.

(** ** Resource normalisation *)

Lemma wrap64_id (z : Z) : Go.is_int64 z -> Go.wrap64 z = z.
Proof.
  unfold Go.is_int64, Go.wrap64. intros H.
  rewrite Z.mod_small; lia.
Qed.

Lemma digit_range (c : ascii) (d : Z) : Go.digit c = Some d -> (0 <= d <= 9)%Z.
Proof.
  unfold Go.digit.
  destruct ((48 <=? Z.of_nat (nat_of_ascii c)) && (Z.of_nat (nat_of_ascii c) <=? 57))%Z eqn:E;
    [|discriminate].
  intros [= <-]. apply andb_true_iff in E. lia.
Qed.

Lemma parseDigits_range (s : string) (n un : Z) :
  (0 <= n < 2 ^ 64)%Z -> Go.parseDigits s n = inl un -> (0 <= un < 2 ^ 64)%Z.
Proof.
  revert n. induction s as [|c s IH]; intros n Hn; simpl.
  - now intros [= <-].
  - destruct (Go.digit c) as [d|] eqn:D; [|discriminate].
    apply digit_range in D.
    destruct (2 ^ 64 <=? n * 10 + d)%Z eqn:E; [discriminate|].
    apply IH. apply Z.leb_gt in E. lia.
Qed.

(** What [Atoi] returns fits [int]. *)
Lemma Atoi_int64 (s : string) (c : Z) : Go.Atoi s = inl c -> Go.is_int64 c.
Proof.
  unfold Go.Atoi.
  set (sb := match s with
             | String "-" rest => (true, rest)
             | String "+" rest => (false, rest)
             | _ => (false, s)
             end).
  destruct sb as [neg body]. destruct body as [|b body]; [discriminate|].
  destruct (Go.parseDigits (String b body) 0) as [un|] eqn:P; [|discriminate].
  apply parseDigits_range in P; [|lia].
  unfold Go.is_int64.
  destruct neg; simpl.
  - destruct (2 ^ 63 <? un)%Z eqn:E; [discriminate|].
    apply Z.ltb_ge in E. intros [= <-]. lia.
  - destruct (2 ^ 63 <=? un)%Z eqn:E; [discriminate|].
    apply Z.leb_gt in E. intros [= <-]. lia.
Qed.

(** [validateCreateConfig] on a config whose [Config] is set, by the three
    ways the CPU count is settled. *)
Lemma validateCreateConfig_error (config : types.ContainerCreateConfig)
  (cfg : container.Config) (err : Go.error) :
  types.Config config = Some cfg ->
  vic.cpuCountOf (hostConfigOf config) = inr err ->
  vic.validateCreateConfig config
  = (vic.withHostConfig config (hostConfigOf config), Some err).
Proof.
  intros Hc He. unfold vic.validateCreateConfig. rewrite Hc.
  fold (hostConfigOf config). now rewrite He.
Qed.

Lemma validateCreateConfig_cpus (config : types.ContainerCreateConfig)
  (cfg : container.Config) (cpuCount : Z) :
  types.Config config = Some cfg ->
  vic.cpuCountOf (hostConfigOf config) = inl cpuCount ->
  snd (vic.validateCreateConfig config) = None /\
  container.CPUCount (hostConfigOf (fst (vic.validateCreateConfig config)))
  = Z.max cpuCount vic.MinCPUs.
Proof.
  intros Hc He. unfold vic.validateCreateConfig. rewrite Hc.
  fold (hostConfigOf config). rewrite He. simpl. split; [reflexivity|].
  unfold vic.MinCPUs. destruct (cpuCount <? 1)%Z eqn:E.
  - apply Z.ltb_lt in E. lia.
  - apply Z.ltb_ge in E. lia.
Qed.

(** C3, as the code has it: for a create config whose CPU count input is not
    positive, validateCreateConfig settles the count by the cpuset string --
    empty: the default (DefaultCPUs = 2); first token parses as c: the larger
    of c and the minimum (MinCPUs = 1); first token does not parse: an error
    is returned and the count is left as it was. *)
Theorem validateCreateConfig_cpu_count (config : types.ContainerCreateConfig)
  (cfg : container.Config) :
  types.Config config = Some cfg ->
  (container.CPUCount (hostConfigOf config) <= 0)%Z ->
  let hc := hostConfigOf config in
  let r := vic.validateCreateConfig config in
  (container.CpusetCpus hc = "" ->
   snd r = None /\ container.CPUCount (hostConfigOf (fst r)) = vic.DefaultCPUs) /\
  (container.CpusetCpus hc <> "" ->
   forall c, Go.Atoi (firstCpu hc) = inl c ->
   snd r = None /\ container.CPUCount (hostConfigOf (fst r)) = Z.max c vic.MinCPUs) /\
  (container.CpusetCpus hc <> "" ->
   forall e, Go.Atoi (firstCpu hc) = inr e ->
   snd r = Some (Go.Errorf (Go.Lit "Error parsing CPU count: %s") [Go.OpError e]) /\
   container.CPUCount (hostConfigOf (fst r)) = container.CPUCount hc).
Proof.
  intros Hc Hle hc r.
  assert (Hpos : (0 <? container.CPUCount hc)%Z = false) by (apply Z.ltb_ge; exact Hle).
  repeat split.
  - apply (validateCreateConfig_cpus config cfg vic.DefaultCPUs Hc).
    unfold vic.cpuCountOf. fold hc. rewrite Hpos, H. reflexivity.
  - apply (validateCreateConfig_cpus config cfg vic.DefaultCPUs Hc).
    unfold vic.cpuCountOf. fold hc. rewrite Hpos, H. reflexivity.
  - apply (validateCreateConfig_cpus config cfg c Hc).
    unfold vic.cpuCountOf. fold hc. rewrite Hpos.
    apply String.eqb_neq in H. rewrite H. fold (firstCpu hc). rewrite H0.
    now rewrite (wrap64_id c (Atoi_int64 _ _ H0)).
  - apply (validateCreateConfig_cpus config cfg c Hc).
    unfold vic.cpuCountOf. fold hc. rewrite Hpos.
    apply String.eqb_neq in H. rewrite H. fold (firstCpu hc). rewrite H0.
    now rewrite (wrap64_id c (Atoi_int64 _ _ H0)).
  - unfold r. erewrite validateCreateConfig_error; [reflexivity | exact Hc |].
    unfold vic.cpuCountOf. fold hc. rewrite Hpos.
    apply String.eqb_neq in H. rewrite H. fold (firstCpu hc). now rewrite H0.
  - unfold r. erewrite validateCreateConfig_error; [reflexivity | exact Hc |].
    unfold vic.cpuCountOf. fold hc. rewrite Hpos.
    apply String.eqb_neq in H. rewrite H. fold (firstCpu hc). now rewrite H0.
Qed.

(** A count of -3 with the cpuset [0,1]: the first token is 0, below the
    minimum. *)
Lemma validateCreateConfig_cpu_count_witness :
  container.CPUCount
    (hostConfigOf (fst (vic.validateCreateConfig (createConfigWith (-3) "0,1" 0))))
  = vic.MinCPUs.
Proof.
  destruct (validateCreateConfig_cpu_count (createConfigWith (-3) "0,1" 0)
              container.zeroConfig eq_refl ltac:(simpl; lia)) as [_ [H _]].
  destruct (H ltac:(discriminate) 0%Z eq_refl) as [_ H']. exact H'.
Defined.

(** C3, as the spec words it, fails twice: a count of 0 with no cpuset becomes
    the default 2, and a count of 0 with the cpuset [two] stays 0 while an
    error is returned. *)
Lemma validateCreateConfig_cpu_not_minimum :
  vic.validateCreateConfig (createConfigWith 0 "" 0)
  = (createConfigWith 2 "" 2048, None) /\
  ~ cpuFloorSpec (createConfigWith 0 "" 0) /\
  fst (vic.validateCreateConfig (createConfigWith 0 "two" 0))
  = createConfigWith 0 "two" 0 /\
  snd (vic.validateCreateConfig (createConfigWith 0 "two" 0)) <> None /\
  ~ cpuFloorSpec (createConfigWith 0 "two" 0).
Proof.
  split; [vm_compute; reflexivity|].
  split.
  { unfold cpuFloorSpec. intros H.
    assert (E : (2 = 1)%Z); [|discriminate].
    apply H. left. simpl. lia. }
  split; [vm_compute; reflexivity|].
  split; [vm_compute; discriminate|].
  unfold cpuFloorSpec. intros H.
  assert (E : (0 = 1)%Z); [|discriminate].
  apply H. right. eexists. vm_compute. reflexivity.
Qed.

(** The memory [validateCreateConfig] settles on for an input of [memory]
    bytes. *)
Lemma memoryMBOf_aligned (memory : Z) :
  Go.is_int64 memory ->
  (vic.MemoryMinMB <= vic.memoryMBOf memory)%Z /\
  Go.rem (vic.memoryMBOf memory) vic.MemoryAlignMB = 0%Z /\
  Go.is_int64 (vic.memoryMBOf memory).
Proof.
  unfold Go.is_int64, vic.memoryMBOf, Go.div, Go.rem, Go.wrap64,
    vic.MemoryMinMB, vic.MemoryAlignMB, vic.MemoryDefaultMB, vic.MiB.
  intros H.
  set (q := Z.quot memory 1048576).
  assert (Hq : (- 2 ^ 43 <= q < 2 ^ 43)%Z)
    by (unfold q; Z.to_euclidean_division_equations; lia).
  set (mm := if (q =? 0)%Z then 2048%Z else if (q <? 512)%Z then 512%Z else q).
  assert (Hmm : (512 <= mm < 2 ^ 43)%Z).
  { unfold mm. destruct (q =? 0)%Z; [lia|].
    destruct (q <? 512)%Z eqn:E; [lia|]. apply Z.ltb_ge in E. lia. }
  clearbody mm. clear q Hq H.
  destruct (Z.rem mm 128 =? 0)%Z eqn:E; simpl.
  - apply Z.eqb_eq in E. lia.
  - apply Z.eqb_neq in E.
    assert (Hr : (0 < Z.rem mm 128 < 128)%Z)
      by (Z.to_euclidean_division_equations; lia).
    rewrite (Z.mod_small (128 - Z.rem mm 128 + 2 ^ 63)) by lia.
    replace (128 - Z.rem mm 128 + 2 ^ 63 - 2 ^ 63)%Z with (128 - Z.rem mm 128)%Z by lia.
    rewrite Z.mod_small by lia.
    replace (mm + (128 - Z.rem mm 128) + 2 ^ 63 - 2 ^ 63)%Z
      with (mm + (128 - Z.rem mm 128))%Z by lia.
    repeat split; try lia.
    Z.to_euclidean_division_equations; lia.
Qed.

(** [validateCreateConfig] fails only on a nil [Config] or on a cpuset that
    does not parse: the memory input plays no part in it. *)
Lemma validateCreateConfig_succeeds (config : types.ContainerCreateConfig) :
  snd (vic.validateCreateConfig config) = None <->
  types.Config config <> None /\
  exists cpuCount, vic.cpuCountOf (hostConfigOf config) = inl cpuCount.
Proof.
  unfold vic.validateCreateConfig. fold (hostConfigOf config).
  destruct (types.Config config) as [cfg|]; simpl.
  - destruct (vic.cpuCountOf (hostConfigOf config)) as [c|e]; simpl.
    + split; [intros _; split; [discriminate | eauto] | reflexivity].
    + split; [discriminate | intros [_ [c H]]; discriminate].
  - split; [discriminate | intros [H _]; congruence].
Qed.

(** C5: for every memory input in bytes -- zero and negative values too --
    the memory validateCreateConfig produces, in MiB, is positive, a multiple
    of the alignment (MemoryAlignMB = 128) and at least the floor
    (MemoryMinMB = 512); an input of 0 bytes gives the default
    (MemoryDefaultMB = 2048), which is aligned as it is. *)
Theorem validateCreateConfig_memory (config : types.ContainerCreateConfig) :
  Go.is_int64 (container.Memory (hostConfigOf config)) ->
  snd (vic.validateCreateConfig config) = None ->
  let m := container.Memory (hostConfigOf (fst (vic.validateCreateConfig config))) in
  (0 < m)%Z /\
  (exists k, (0 < k)%Z /\ m = (k * vic.MemoryAlignMB)%Z) /\
  (vic.MemoryMinMB <= m)%Z /\
  (container.Memory (hostConfigOf config) = 0%Z ->
   m = vic.MemoryDefaultMB /\ Go.rem vic.MemoryDefaultMB vic.MemoryAlignMB = 0%Z).
Proof.
  intros Hmem Hok. apply validateCreateConfig_succeeds in Hok.
  destruct Hok as [Hc [cpuCount Hcpu]].
  unfold vic.validateCreateConfig. fold (hostConfigOf config).
  destruct (types.Config config) as [cfg|]; [|congruence].
  rewrite Hcpu. cbn [fst hostConfigOf vic.withHostConfig types.HostConfig container.Memory].
  destruct (memoryMBOf_aligned _ Hmem) as [Hmin [Hrem _]].
  set (m := vic.memoryMBOf (container.Memory (hostConfigOf config))) in *.
  unfold vic.MemoryMinMB, vic.MemoryAlignMB, Go.rem in *.
  repeat split.
  - lia.
  - exists (Z.quot m 128). Z.to_euclidean_division_equations; lia.
  - exact Hmin.
  - unfold m. rewrite H. reflexivity.
Qed.

(** 700 MiB, which is not aligned, becomes 768 MiB. *)
Lemma validateCreateConfig_memory_witness :
  let config := createConfigWith 2 "" 734003200 in
  container.Memory (hostConfigOf (fst (vic.validateCreateConfig config))) = 768%Z /\
  (vic.MemoryMinMB <= container.Memory (hostConfigOf (fst (vic.validateCreateConfig config))))%Z.
Proof.
  cbv zeta. split; [vm_compute; reflexivity|].
  apply (validateCreateConfig_memory (createConfigWith 2 "" 734003200)).
  - unfold Go.is_int64. simpl. lia.
  - reflexivity.
Defined.

(** ** Kube container spec to create config *)

(** C10: KubeSpecToDockerCreateSpec copies the name, Command, WorkingDir,
    Image, Tty, StdinOnce, OpenStdin and the CPU and memory limits; User,
    Env, Volumes, Entrypoint and the cpuset are left at their zero values;
    the kube container's Args (and its Env) play no part in the result. *)
Theorem KubeSpecToDockerCreateSpec_fields (cSpec : v1.Container) :
  vic.KubeSpecToDockerCreateSpec cSpec =
  {| types.Name := v1.Name cSpec;
     types.Config :=
       Some {| container.User := "";
               container.Tty := v1.TTY cSpec;
               container.OpenStdin := v1.Stdin cSpec;
               container.StdinOnce := v1.StdinOnce cSpec;
               container.Env := [];
               container.Cmd := v1.Command cSpec;
               container.Image := v1.Image cSpec;
               container.Volumes := None;
               container.WorkingDir := v1.WorkingDir cSpec;
               container.Entrypoint := [] |};
     types.HostConfig :=
       Some {| container.CPUCount := v1.Value (v1.Cpu (v1.Limits (v1.Resources cSpec)));
               container.CpusetCpus := "";
               container.Memory := v1.Value (v1.Memory (v1.Limits (v1.Resources cSpec))) |} |}
  /\ forall args env,
       vic.KubeSpecToDockerCreateSpec (withArgsEnv cSpec args env)
       = vic.KubeSpecToDockerCreateSpec cSpec.
Proof.
  split; [|reflexivity].
  unfold vic.KubeSpecToDockerCreateSpec.
  destruct (v1.Command cSpec) as [|c cs]; reflexivity.
Qed.

(** ** Task resolution *)

Lemma resolveTask_entrypoint (ic : proxy.IsolationContainerConfig)
  (e : string) (es : list string) :
  proxy.Entrypoint ic = e :: es ->
  proxy.resolveTask ic = Go.Returned (e, es ++ proxy.Cmd ic).
Proof. unfold proxy.resolveTask. now intros ->. Qed.

Lemma resolveTask_cmd (ic : proxy.IsolationContainerConfig)
  (c : string) (cs : list string) :
  proxy.Entrypoint ic = [] -> proxy.Cmd ic = c :: cs ->
  proxy.resolveTask ic = Go.Returned (c, cs).
Proof. unfold proxy.resolveTask. now intros -> ->. Qed.

Lemma resolvesTo_resolveTask (id layerID : string) (ic : proxy.IsolationContainerConfig)
  (path : string) (args : list string) :
  proxy.resolveTask ic = Go.Returned (path, args) -> resolvesTo id layerID ic path args.
Proof.
  intros H. unfold resolvesTo, proxy.IsolationContainerConfigToTask. rewrite H.
  eexists. repeat split.
Qed.

(** C4: with a non-empty Entrypoint the task's path is Entrypoint[0] and its
    arguments are Entrypoint[1:] followed by Cmd; with an empty Entrypoint and
    a non-empty Cmd the path is Cmd[0] and the arguments are Cmd[1:].  So a
    command of /bin/sh, -c, echo hi with no entrypoint runs /bin/sh with
    -c, echo hi; and the entrypoint /init with the command --flag runs /init
    with --flag. *)
Theorem IsolationContainerConfigToTask_path_args (id layerID : string)
  (ic : proxy.IsolationContainerConfig) :
  (forall e es, proxy.Entrypoint ic = e :: es ->
     resolvesTo id layerID ic e (es ++ proxy.Cmd ic)) /\
  (forall c cs, proxy.Entrypoint ic = [] -> proxy.Cmd ic = c :: cs ->
     resolvesTo id layerID ic c cs) /\
  (proxy.Entrypoint ic = [] -> proxy.Cmd ic = ["/bin/sh"; "-c"; "echo hi"] ->
     resolvesTo id layerID ic "/bin/sh" ["-c"; "echo hi"]) /\
  (proxy.Entrypoint ic = ["/init"] -> proxy.Cmd ic = ["--flag"] ->
     resolvesTo id layerID ic "/init" ["--flag"]).
Proof.
  repeat split.
  - intros e es He. apply resolvesTo_resolveTask. now apply resolveTask_entrypoint.
  - intros c cs He Hc. apply resolvesTo_resolveTask. now apply resolveTask_cmd.
  - intros He Hc. apply resolvesTo_resolveTask. now apply resolveTask_cmd.
  - intros He Hc. apply resolvesTo_resolveTask.
    rewrite (resolveTask_entrypoint ic "/init" [] He), Hc. reflexivity.
Qed.

(** The two scenarios, on configs that differ in every interactivity flag. *)
Lemma IsolationContainerConfigToTask_path_args_witness :
  resolvesTo "id" "layer"
    (isolationConfigWith ["/bin/sh"; "-c"; "echo hi"] [] false false false false ∅)
    "/bin/sh" ["-c"; "echo hi"] /\
  resolvesTo "id" "layer"
    (isolationConfigWith ["--flag"] ["/init"] true true true true ∅)
    "/init" ["--flag"].
Proof.
  split.
  - apply (IsolationContainerConfigToTask_path_args "id" "layer"
             (isolationConfigWith ["/bin/sh"; "-c"; "echo hi"] [] false false false false ∅));
      reflexivity.
  - apply (IsolationContainerConfigToTask_path_args "id" "layer"
             (isolationConfigWith ["--flag"] ["/init"] true true true true ∅));
      reflexivity.
Defined.

(** ** The handle pipeline *)

Lemma resolveTask_total (ic : proxy.IsolationContainerConfig) :
  proxy.Entrypoint ic <> [] \/ proxy.Cmd ic <> [] ->
  exists path args, proxy.resolveTask ic = Go.Returned (path, args).
Proof.
  unfold proxy.resolveTask.
  destruct (proxy.Entrypoint ic) as [|e es]; simpl.
  - intros [H|H]; [congruence|].
    destruct (proxy.Cmd ic) as [|c cs]; [congruence | eauto].
  - eauto.
Qed.

(** C8: the task-join request CreateHandleTask sends carries attach = true,
    whatever the Attach, Tty, OpenStdin and StdinOnce of the caller's
    configuration are; with a client and a resolvable task exactly one such
    request is sent, for the caller's handle. *)
Theorem CreateHandleTask_attach {Remote : Type} (v : proxy.VicIsolationProxy Remote)
  (handle id layerID : string) (config : proxy.IsolationContainerConfig) (r : Remote) :
  let w' := snd (proxy.CreateHandleTask v handle id layerID config (start r)) in
  Forall (fun task => models.Attach task = true) (joinRequests (proxy.trace w')) /\
  (forall pl, proxy.client v = Some pl ->
     proxy.Entrypoint config <> [] \/ proxy.Cmd config <> [] ->
     exists task,
       joinRequests (proxy.trace w') = [task] /\
       models.Attach task = true /\
       models.Handle task = models.IString handle /\
       models.OpenStdin task = proxy.OpenStdin config /\
       models.Tty task = proxy.Tty config).
Proof.
  cbv zeta. unfold proxy.CreateHandleTask, proxy.IsolationContainerConfigToTask, start.
  destruct (proxy.client v) as [pl|]; [|split; [constructor | discriminate]].
  destruct (proxy.resolveTask config) as [[path args]|] eqn:R.
  - step_world.
    match goal with
    | |- context [proxy.Tasks_Join pl ?t r] =>
        destruct (proxy.Tasks_Join pl t r) as [[[h|]|msg] r1]
    end; step_world.
    + match goal with
      | |- context [proxy.Tasks_Bind pl ?t r1] =>
          destruct (proxy.Tasks_Bind pl t r1) as [[[h2|]|msg] r2]
      end; step_world;
        (split; [repeat constructor | intros _ _ _; eexists; repeat split]).
    + split; [repeat constructor | intros _ _ _; eexists; repeat split].
    + split; [repeat constructor | intros _ _ _; eexists; repeat split].
  - step_world. split; [constructor|].
    intros _ _ H. destruct (resolveTask_total config H) as [p [a E]]. congruence.
Qed.

(** The witness of C8: a config that asks for no interactivity at all. *)
Lemma CreateHandleTask_attach_witness :
  exists task,
    joinRequests
      (proxy.trace
         (snd (proxy.CreateHandleTask (proxyOver acceptingLayer) "handle-0" "id" "layer"
                 (isolationConfigWith ["/bin/true"] [] false false false false ∅)
                 (start 0)))) = [task] /\
    models.Attach task = true /\
    models.Handle task = models.IString "handle-0" /\
    models.OpenStdin task = false /\
    models.Tty task = false.
Proof.
  destruct (CreateHandleTask_attach (proxyOver acceptingLayer) "handle-0" "id" "layer"
              (isolationConfigWith ["/bin/true"] [] false false false false ∅) 0)
    as [_ H].
  apply (H acceptingLayer eq_refl). right. discriminate.
Defined.

(** The scope join is sent whatever the port map holds: the network config
    [networkConfigFromIsolationConfig] builds is never nil. *)
Lemma AddHandleToScope_run {Remote : Type} (v : proxy.VicIsolationProxy Remote)
  (pl : proxy.PortLayer Remote) (handle : string)
  (config : proxy.IsolationContainerConfig) (w : proxy.World Remote) :
  proxy.client v = Some pl ->
  let join := proxy.ScopesAddContainer "default" (scopeJoinOf handle config) in
  proxy.AddHandleToScope v handle config w =
  match proxy.Scopes_AddContainer pl "default" (scopeJoinOf handle config) (proxy.remote w) with
  | (inl payload, r') =>
      ((payload, None),
       {| proxy.remote := r'; proxy.trace := proxy.trace w ++ [join] |})
  | (inr msg, r') =>
      ((handle, Some (Go.InternalServerError (Go.Lit msg))),
       {| proxy.remote := r';
          proxy.trace :=
            proxy.trace w ++
            [join;
             proxy.Logf proxy.LError
               (Go.Lit "ContainerProxy.AddContainerToScope: Scopes error: %s")
               [Go.OpString msg]] |})
  end.
Proof.
  intros Hc. cbv zeta. unfold proxy.AddHandleToScope. rewrite Hc.
  unfold proxy.networkConfigFromIsolationConfig, proxy.rollBack. step_world.
  cbn [models.NetworkName]. fold (scopeJoinOf handle config).
  destruct (proxy.Scopes_AddContainer pl "default" (scopeJoinOf handle config) (proxy.remote w))
    as [[payload|msg] r']; step_world; [reflexivity|].
  now rewrite <- app_assoc.
Qed.

Lemma scopeJoinOf_empty (handle : string) (config : proxy.IsolationContainerConfig) :
  proxy.PortMap config = ∅ ->
  scopeJoinOf handle config =
  {| models.ScopeHandle := handle;
     models.ScopeNetworkConfig := {| models.NetworkName := "default"; models.Ports := [] |} |}.
Proof. unfold scopeJoinOf. intros ->. now rewrite map_to_list_empty. Qed.

(** C1, as the code has it: on an empty port map AddHandleToScope still sends
    one scope join -- for the scope default, with the input handle and no
    ports -- and nothing else.  When the join succeeds the handle of the
    reply is returned with a nil error; when it fails the input handle is
    returned with an internal error that carries the text of the failure. *)
Theorem AddHandleToScope_empty_port_map {Remote : Type}
  (v : proxy.VicIsolationProxy Remote) (pl : proxy.PortLayer Remote)
  (handle : string) (config : proxy.IsolationContainerConfig)
  (w : proxy.World Remote) :
  proxy.client v = Some pl ->
  proxy.PortMap config = ∅ ->
  let request :=
    {| models.ScopeHandle := handle;
       models.ScopeNetworkConfig :=
         {| models.NetworkName := "default"; models.Ports := [] |} |} in
  let join := proxy.ScopesAddContainer "default" request in
  proxy.AddHandleToScope v handle config w =
  match proxy.Scopes_AddContainer pl "default" request (proxy.remote w) with
  | (inl payload, r') =>
      ((payload, None),
       {| proxy.remote := r'; proxy.trace := proxy.trace w ++ [join] |})
  | (inr msg, r') =>
      ((handle, Some (Go.InternalServerError (Go.Lit msg))),
       {| proxy.remote := r';
          proxy.trace :=
            proxy.trace w ++
            [join;
             proxy.Logf proxy.LError
               (Go.Lit "ContainerProxy.AddContainerToScope: Scopes error: %s")
               [Go.OpString msg]] |})
  end.
Proof.
  intros Hc Hp. cbv zeta.
  rewrite (AddHandleToScope_run v pl handle config w Hc). cbv zeta.
  now rewrite (scopeJoinOf_empty handle config Hp).
Qed.

(** On an accepting port layer the empty port map yields the handle of the
    reply, after one request. *)
Lemma AddHandleToScope_empty_port_map_witness :
  proxy.AddHandleToScope (proxyOver acceptingLayer) "handle-0"
    (isolationConfigWith ["/bin/true"] [] false false false false ∅) (start 0)
  = (("handle-scoped", None),
     {| proxy.remote := 1;
        proxy.trace :=
          [proxy.ScopesAddContainer "default"
             {| models.ScopeHandle := "handle-0";
                models.ScopeNetworkConfig :=
                  {| models.NetworkName := "default"; models.Ports := [] |} |}] |}).
Proof.
  exact (AddHandleToScope_empty_port_map (proxyOver acceptingLayer) acceptingLayer
           "handle-0" (isolationConfigWith ["/bin/true"] [] false false false false ∅)
           (start 0) eq_refl eq_refl).
Defined.

(** C1, as the spec words it, fails on an accepting port layer: the handle
    that comes back is the remote's, and a scope join was sent. *)
Lemma AddHandleToScope_empty_port_map_joins :
  ~ scopeNoopSpec (proxyOver acceptingLayer) "handle-0"
      (isolationConfigWith ["/bin/true"] [] false false false false ∅) (start 0).
Proof.
  intros H. destruct (H eq_refl) as [H1 _]. vm_compute in H1. discriminate.
Qed.

(** [AddHandleToScope] never asks for a removal: the deferred function is
    registered only after the join has succeeded, and it reads the error of
    that join. *)
Lemma AddHandleToScope_never_removes {Remote : Type}
  (v : proxy.VicIsolationProxy Remote) (handle : string)
  (config : proxy.IsolationContainerConfig) (w : proxy.World Remote) :
  scopeRemovals (proxy.trace (snd (proxy.AddHandleToScope v handle config w)))
  = scopeRemovals (proxy.trace w).
Proof.
  destruct (proxy.client v) as [pl|] eqn:Hc.
  - rewrite (AddHandleToScope_run v pl handle config w Hc). cbv zeta.
    destruct (proxy.Scopes_AddContainer pl "default" (scopeJoinOf handle config)
                (proxy.remote w)) as [[payload|msg] r'];
      cbn [snd proxy.trace]; unfold scopeRemovals; rewrite List.filter_app;
      simpl; now rewrite app_nil_r.
  - unfold proxy.AddHandleToScope. rewrite Hc. reflexivity.
Qed.

(** C2, on the code: when the scope join fails AddHandleToScope returns at
    once with the input handle and an internal error that carries the text of
    the failure; no removal is asked for, so the rollback the spec describes
    does not happen. *)
Theorem AddHandleToScope_failed_join {Remote : Type}
  (v : proxy.VicIsolationProxy Remote) (pl : proxy.PortLayer Remote)
  (handle : string) (config : proxy.IsolationContainerConfig)
  (w : proxy.World Remote) (msg : string) (r' : Remote) :
  proxy.client v = Some pl ->
  proxy.PortMap config <> ∅ ->
  proxy.Scopes_AddContainer pl "default" (scopeJoinOf handle config) (proxy.remote w)
  = (inr msg, r') ->
  fst (proxy.AddHandleToScope v handle config w)
  = (handle, Some (Go.InternalServerError (Go.Lit msg))) /\
  scopeRemovals (proxy.trace (snd (proxy.AddHandleToScope v handle config w)))
  = scopeRemovals (proxy.trace w) /\
  ~ rollbackSpec v handle config w.
Proof.
  intros Hc Hp Hj. split; [|split].
  - rewrite (AddHandleToScope_run v pl handle config w Hc). cbv zeta.
    now rewrite Hj.
  - apply AddHandleToScope_never_removes.
  - intros H. destruct (H pl msg r' Hc Hp Hj) as [_ Hn].
    rewrite AddHandleToScope_never_removes in Hn. lia.
Qed.

(** The failing input of C2: a web server's port map on a port layer that
    refuses the scope join. *)
Lemma AddHandleToScope_failed_join_witness :
  let config := isolationConfigWith ["nginx"] [] false false false false webPorts in
  fst (proxy.AddHandleToScope (proxyOver refusingLayer) "handle-0" config (start 0))
  = ("handle-0", Some (Go.InternalServerError (Go.Lit "scope join refused"))) /\
  scopeRemovals
    (proxy.trace (snd (proxy.AddHandleToScope (proxyOver refusingLayer) "handle-0" config
                         (start 0)))) = [] /\
  ~ rollbackSpec (proxyOver refusingLayer) "handle-0" config (start 0).
Proof.
  cbv zeta.
  apply (AddHandleToScope_failed_join (proxyOver refusingLayer) refusingLayer "handle-0"
           (isolationConfigWith ["nginx"] [] false false false false webPorts)
           (start 0) "scope join refused" 1).
  - reflexivity.
  - unfold isolationConfigWith, webPorts. cbn [proxy.PortMap].
    intros H. apply (f_equal (fun m => m !! "80")) in H.
    rewrite lookup_singleton_eq, lookup_empty in H. discriminate.
  - reflexivity.
Defined.

(** ** The image store *)

(** C9: Get swallows lookup and pull failures.  When the cache lookup fails
    and actuate is false, and when actuate is true but the pull fails, Get
    returns the config of the failed lookup with a nil error; it returns an
    error exactly when the first lookup failed, actuate is set, the pull
    succeeded and the second lookup fails -- the error of that lookup, with a
    nil config. *)
Theorem Get_swallows_failures {Remote : Type}
  (cache_Get : string -> Remote -> option metadata.ImageConfig * option string)
  (http_Post : string -> string -> Remote -> (proxy.HttpResponse + string) * Remote)
  (v : proxy.VicImageStore Remote) (idOrRef tag : string) (actuate : bool)
  (w : proxy.World Remote) :
  let first := cache_Get idOrRef (proxy.remote w) in
  let w1 := {| proxy.remote := proxy.remote w;
               proxy.trace := proxy.trace w ++ [proxy.CacheGet idOrRef] |} in
  let pull := proxy.PullImage http_Post v idOrRef tag "" "" w1 in
  let second := cache_Get idOrRef (proxy.remote (snd pull)) in
  let result := fst (proxy.Get cache_Get http_Post v idOrRef tag actuate w) in
  (snd first <> None -> actuate = false -> result = (fst first, None)) /\
  (snd first <> None -> actuate = true -> fst pull <> None ->
   result = (fst first, None)) /\
  (forall err,
     snd result = Some err <->
     snd first <> None /\ actuate = true /\ fst pull = None /\
     exists msg, snd second = Some msg /\ err = Go.New (Go.Lit msg)) /\
  (snd result <> None -> fst result = None).
Proof.
  cbv zeta. unfold proxy.Get, proxy.lookup. step_world.
  destruct (cache_Get idOrRef (proxy.remote w)) as [c [e|]];
    [destruct actuate;
     [step_world;
      destruct (proxy.PullImage http_Post v idOrRef tag "" ""
                  {| proxy.remote := proxy.remote w;
                     proxy.trace := proxy.trace w ++ [proxy.CacheGet idOrRef] |})
        as [[pe|] w2];
      [|step_world; destruct (cache_Get idOrRef (proxy.remote w2)) as [c2 [e2|]]]|]|];
    step_world; split_ands; try congruence;
    (intros err; split;
     [intros Hs; try discriminate Hs; injection Hs as <-;
      split_ands; try congruence; eauto
     |intros (H1 & H2 & H3 & msg & H4 & H5); congruence]).
Qed.

(** A cold cache and a persona that cannot be reached: the caller gets a nil
    config and a nil error. *)
Lemma Get_swallows_failures_witness :
  fst (proxy.Get coldCache unreachablePersona (imageStoreAt "persona:2376")
         "busybox" "latest" true (start 0))
  = (None, None).
Proof.
  destruct (Get_swallows_failures coldCache unreachablePersona
              (imageStoreAt "persona:2376") "busybox" "latest" true (start 0))
    as [_ [H _]].
  apply H; [discriminate | reflexivity | discriminate].
Defined.

(** ** Pod creation *)

(** One container: whatever the store answers, short of a nil image or a nil
    image config, [createContainer] returns, having asked for the image. *)
Lemma createContainer_asks {Store : Type}
  (get : string -> Store -> (option metadata.ImageConfig * option string) * Store)
  (c : v1.Container) (w : vic.World Store) :
  answersOrFails get ->
  exists err,
    fst (vic.createContainer get (vic.KubeSpecToDockerCreateSpec c) w) = Go.Returned err /\
    imagesAsked (vic.trace (snd (vic.createContainer get (vic.KubeSpecToDockerCreateSpec c) w)))
    = imagesAsked (vic.trace w) ++ [v1.Image c].
Proof.
  intros Hget. specialize (Hget (v1.Image c) (vic.store w)).
  unfold vic.createContainer, vic.KubeSpecToDockerCreateSpec.
  cbn [types.Config container.Image]. step_pod.
  destruct (get (v1.Image c) (vic.store w)) as [[img [e|]] s']; cbn [fst] in Hget.
  - destruct img; step_pod; (eexists; split; [reflexivity|]);
      unfold imagesAsked; rewrite !omap_app; simpl; now rewrite app_nil_r.
  - destruct img as [img|]; [|destruct Hget].
    unfold vic.setCreateConfigOptions.
    destruct (metadata.Config img) as [icfg|]; [|congruence].
    step_pod. eexists. split; [reflexivity|].
    unfold imagesAsked. rewrite !omap_app. simpl. now rewrite app_nil_r.
Qed.

(** The loop: every container is asked for, in order, failures or not. *)
Lemma createContainers_asks {Store : Type}
  (get : string -> Store -> (option metadata.ImageConfig * option string) * Store)
  (podName : string) (cs : list v1.Container) (w : vic.World Store) :
  answersOrFails get ->
  fst (vic.createContainers get podName cs w) = Go.Returned tt /\
  imagesAsked (vic.trace (snd (vic.createContainers get podName cs w)))
  = imagesAsked (vic.trace w) ++ map v1.Image cs.
Proof.
  intros Hget. revert w. induction cs as [|c cs IH]; intros w.
  - simpl. split; [reflexivity | now rewrite app_nil_r].
  - cbn [vic.createContainers map]. unfold Go.bind.
    destruct (createContainer_asks get c w Hget) as [err [Hr Ht]].
    destruct (vic.createContainer get (vic.KubeSpecToDockerCreateSpec c) w) as [r w1].
    cbn [fst snd] in Hr, Ht. subst r.
    destruct err as [e|].
    + step_pod.
      match goal with
      | |- context [vic.createContainers get podName cs ?w2] =>
          destruct (IH w2) as [Hr' Ht']
      end.
      split; [exact Hr'|]. rewrite Ht'. cbn [vic.trace].
      unfold imagesAsked at 1. rewrite omap_app. fold (imagesAsked (vic.trace w1)).
      rewrite Ht. simpl. rewrite app_nil_r. now rewrite <- app_assoc.
    + step_pod. destruct (IH w1) as [Hr' Ht'].
      split; [exact Hr'|]. rewrite Ht', Ht. now rewrite <- app_assoc.
Qed.

(** C7: CreatePod never returns an error.  Short of a panic it returns nil,
    and it has then asked the image store for the image of every container of
    the pod, in order -- also after containers whose creation failed. *)
Theorem CreatePod_returns_nil {Store : Type}
  (get : string -> Store -> (option metadata.ImageConfig * option string) * Store)
  (pod : v1.Pod) (w : vic.World Store) :
  (forall err, fst (vic.CreatePod get pod w) <> Go.Returned (Some err)) /\
  (answersOrFails get ->
   fst (vic.CreatePod get pod w) = Go.Returned None /\
   imagesAsked (vic.trace (snd (vic.CreatePod get pod w)))
   = imagesAsked (vic.trace w) ++ map v1.Image (v1.Containers pod)).
Proof.
  unfold vic.CreatePod, Go.bind. split.
  - intros err.
    destruct (vic.createContainers get (v1.PodName pod) (v1.Containers pod) w) as [[u|] w'];
      unfold Go.ret; cbn [fst]; congruence.
  - intros Hget.
    destruct (createContainers_asks get (v1.PodName pod) (v1.Containers pod) w Hget)
      as [Hr Ht].
    destruct (vic.createContainers get (v1.PodName pod) (v1.Containers pod) w) as [r w'].
    cbn [fst snd] in Hr, Ht. subst r. unfold Go.ret. cbn [fst snd].
    split; [reflexivity | exact Ht].
Qed.

Lemma storeWithoutMissing_answers : answersOrFails storeWithoutMissing.
Proof.
  intros image s. unfold storeWithoutMissing.
  destruct (String.eqb image "missing"); cbn [fst]; [exact I | discriminate].
Qed.

(** A pod of three containers, the first and the last of which fail: nil is
    returned, all three were attempted, and two failures were logged. *)
Lemma CreatePod_returns_nil_witness :
  fst (vic.CreatePod storeWithoutMissing threeContainers
         {| vic.store := tt; vic.trace := [] |}) = Go.Returned None /\
  imagesAsked
    (vic.trace (snd (vic.CreatePod storeWithoutMissing threeContainers
                       {| vic.store := tt; vic.trace := [] |})))
  = ["missing"; "busybox"; "missing"] /\
  failuresLogged
    (vic.trace (snd (vic.CreatePod storeWithoutMissing threeContainers
                       {| vic.store := tt; vic.trace := [] |})))
  = [["a"; "web"]; ["c"; "web"]].
Proof.
  destruct (CreatePod_returns_nil storeWithoutMissing threeContainers
              {| vic.store := tt; vic.trace := [] |}) as [_ H].
  destruct (H storeWithoutMissing_answers) as [H1 H2].
  split; [exact H1|]. split; [exact H2|]. vm_compute. reflexivity.
Defined.

(** ** Further facts and worked examples *)

(** A positive CPU count is kept, and the cpuset is not read. *)
Lemma validateCreateConfig_cpu_positive (config : types.ContainerCreateConfig)
  (cfg : container.Config) :
  types.Config config = Some cfg ->
  (0 < container.CPUCount (hostConfigOf config))%Z ->
  snd (vic.validateCreateConfig config) = None /\
  container.CPUCount (hostConfigOf (fst (vic.validateCreateConfig config)))
  = container.CPUCount (hostConfigOf config).
Proof.
  intros Hc Hpos.
  destruct (validateCreateConfig_cpus config cfg
              (container.CPUCount (hostConfigOf config)) Hc) as [H1 H2].
  - unfold vic.cpuCountOf. apply Z.ltb_lt in Hpos. now rewrite Hpos.
  - split; [exact H1|]. rewrite H2. unfold vic.MinCPUs. lia.
Qed.

(** Without a client nothing is asked of the remote. *)
Lemma AddHandleToScope_nil_client {Remote : Type}
  (v : proxy.VicIsolationProxy Remote) (handle : string)
  (config : proxy.IsolationContainerConfig) (w : proxy.World Remote) :
  proxy.client v = None ->
  proxy.AddHandleToScope v handle config w
  = (("", Some (Go.NillPortlayerClientError "IsolationProxy")), w).
Proof. intros H. unfold proxy.AddHandleToScope. now rewrite H. Qed.

Example Atoi_plain : Go.Atoi "12" = inl 12%Z.
Proof. reflexivity. Qed.

Example Atoi_signed : Go.Atoi "-3" = inl (-3)%Z /\ Go.Atoi "+7" = inl 7%Z.
Proof. split; reflexivity. Qed.

Example Atoi_rejects :
  Go.Atoi "" = inr (Go.NumError "Atoi" "" Go.ErrSyntax) /\
  Go.Atoi "-" = inr (Go.NumError "Atoi" "-" Go.ErrSyntax) /\
  Go.Atoi "0-3" = inr (Go.NumError "Atoi" "0-3" Go.ErrSyntax) /\
  Go.Atoi "9223372036854775808"
  = inr (Go.NumError "Atoi" "9223372036854775808" Go.ErrRange) /\
  Go.Atoi "-9223372036854775808" = inl (- 2 ^ 63)%Z.
Proof. repeat split; vm_compute; reflexivity. Qed.

Example Split_cpuset :
  Go.Split "0,1" "," = ["0"; "1"] /\ Go.Split "0-3" "," = ["0-3"] /\
  Go.Split ",2" "," = [""; "2"].
Proof. repeat split. Qed.

Example SplitN_entry :
  Go.SplitN "A=b=c" "=" 2 = ["A"; "b=c"] /\ Go.SplitN "A" "=" 2 = ["A"] /\
  Go.SplitN "A=" "=" 2 = ["A"; ""].
Proof. repeat split. Qed.

(** Memory: nothing, less than a MiB below zero, a negative amount, an
    unaligned amount, and the largest input. *)
Example memoryMBOf_values :
  vic.memoryMBOf 0 = 2048%Z /\
  vic.memoryMBOf (-1) = 2048%Z /\
  vic.memoryMBOf (-5368709120) = 512%Z /\
  vic.memoryMBOf 104857600 = 512%Z /\
  vic.memoryMBOf 2148532224 = 2176%Z /\
  vic.memoryMBOf (2 ^ 63 - 1) = (2 ^ 43)%Z.
Proof. repeat split; vm_compute; reflexivity. Qed.

(** A cpuset range such as [0-3] does not parse: the first token is the whole
    string. *)
Example validateCreateConfig_cpuset_range :
  snd (vic.validateCreateConfig (createConfigWith 0 "0-3" 0))
  = Some (Go.Errorf (Go.Lit "Error parsing CPU count: %s")
            [Go.OpError (Go.NumError "Atoi" "0-3" Go.ErrSyntax)]).
Proof. vm_compute. reflexivity. Qed.

(** Without a user [PATH] the image's first [PATH] is taken, or the default;
    with a terminal and no user [TERM], [TERM=xterm] is injected, and the
    image's own [TERM] is appended after it. *)
Example setEnvFromImageConfig_image_path :
  vic.setEnvFromImageConfig false ["A=1"] ["PATH=/img"; "A=2"; "B=3"]
  = ["A=1"; "PATH=/img"; "B=3"].
Proof. vm_compute. reflexivity. Qed.

Example setEnvFromImageConfig_default_path :
  vic.setEnvFromImageConfig false [] []
  = ["PATH=/usr/local/sbin:/usr/local/bin:/usr/sbin:/usr/bin:/sbin:/bin"].
Proof. vm_compute. reflexivity. Qed.

Example setEnvFromImageConfig_term :
  vic.setEnvFromImageConfig true ["PATH=/bin"] ["TERM=linux"]
  = ["PATH=/bin"; "TERM=xterm"; "TERM=linux"].
Proof. vm_compute. reflexivity. Qed.

(** With port bindings the join carries them as hostPort:containerPort, and
    the handle of the reply is returned. *)
Example AddHandleToScope_web_ports :
  proxy.AddHandleToScope (proxyOver acceptingLayer) "handle-0"
    (isolationConfigWith ["nginx"] [] false false false false webPorts) (start 0)
  = (("handle-scoped", None),
     {| proxy.remote := 1;
        proxy.trace :=
          [proxy.ScopesAddContainer "default"
             {| models.ScopeHandle := "handle-0";
                models.ScopeNetworkConfig :=
                  {| models.NetworkName := "default"; models.Ports := ["8080:80"] |} |}] |}).
Proof. vm_compute. reflexivity. Qed.

(** With neither entrypoint nor command the task cannot be resolved. *)
Example IsolationContainerConfigToTask_empty :
  proxy.IsolationContainerConfigToTask "id" "layer"
    (isolationConfigWith [] [] false false false false ∅) = Go.Panicked.
Proof. reflexivity. Qed.

(** A persona that answers 200 while the cache stays cold: the one case in
    which [Get] returns an error. *)
Example Get_error_after_pull :
  fst (proxy.Get coldCache forgetfulPersona (imageStoreAt "persona:2376")
         "busybox" "" true (start 0))
  = (None, Some (Go.New (Go.Lit "image not found in cache"))) /\
  proxy.trace (snd (proxy.Get coldCache forgetfulPersona (imageStoreAt "persona:2376")
                      "busybox" "" true (start 0)))
  = [proxy.CacheGet "busybox";
     proxy.Logf proxy.LInfo (Go.Lit "POST %s")
       [Go.OpString "http://persona:2376/v1.35/images/create?fromImage=busybox"];
     proxy.HttpPost "http://persona:2376/v1.35/images/create?fromImage=busybox"
       "application/json";
     proxy.Logf proxy.LInfo (Go.Lit "Response from docker pull: body = %s")
       [Go.OpString "pulled"];
     proxy.CacheGet "busybox"].
Proof. split; vm_compute; reflexivity. Qed.


(** * Further properties of the code *)

(** ** The environment merge, continued *)

(** Every key of the image's environment is a key of the merged one. *)
Lemma merged_covers_image (tty : bool) (env imgEnv : list string) (e : string) :
  In e imgEnv ->
  In (envKey e) (map envKey (vic.setEnvFromImageConfig tty env imgEnv)).
Proof.
  intros He. rewrite setEnvFromImageConfig_shape. cbv zeta.
  set (env1 := vic.setPathFromImageConfig env imgEnv).
  rewrite !map_app, !in_app_iff.
  destruct ((foldl vic.recordEnv ∅ env1 : gmap string string) !! envKey e) as [x|] eqn:E.
  - left.
    assert (Hs : is_Some ((foldl vic.recordEnv ∅ env1 : gmap string string) !! envKey e))
      by (rewrite E; eauto).
    apply containerEnv_keys in Hs. destruct Hs as [Hs|Hs]; [|exact Hs].
    rewrite lookup_empty in Hs. destruct Hs as [? Hs]. discriminate.
  - right. right. apply in_map. apply List.filter_In. split; [exact He|].
    now rewrite E.
Qed.

(** A second merge finds its [PATH], its [TERM] and every key of the image
    in place. *)
Lemma merged_again (tty : bool) (env imgEnv : list string) :
  vic.setEnvFromImageConfig tty (vic.setEnvFromImageConfig tty env imgEnv) imgEnv
  = vic.setEnvFromImageConfig tty env imgEnv.
Proof.
  set (r := vic.setEnvFromImageConfig tty env imgEnv).
  assert (Hpath : entries isPath r <> []).
  { unfold r. rewrite merged_path_entries.
    destruct (setPathFromImageConfig_cases env imgEnv) as [[H ->]|[_ [v [Hv ->]]]];
      [exact H|].
    apply entries_nonempty. exists v. split; [|exact Hv].
    apply in_or_app. right. now left. }
  rewrite setEnvFromImageConfig_shape. cbv zeta.
  destruct (setPathFromImageConfig_cases r imgEnv) as [[_ ->]|[H _]]; [|congruence].
  assert (Hterm : tty = true ->
                  is_Some ((foldl vic.recordEnv ∅ r : gmap string string) !! "TERM")).
  { intros ->. apply containerEnv_keys. right.
    apply (key_of_entry isTerm); [exact isTerm_envKey|].
    apply merged_has_term. }
  assert (Himg : List.filter
                   (fun e => match (foldl vic.recordEnv ∅ r : gmap string string) !! envKey e with
                             | Some _ => false
                             | None => true
                             end) imgEnv = []).
  { apply (entries_empty _ imgEnv). intros e He.
    assert (Hs : is_Some ((foldl vic.recordEnv ∅ r : gmap string string) !! envKey e)).
    { apply containerEnv_keys. right. unfold r. now apply merged_covers_image. }
    destruct Hs as [x ->]. reflexivity. }
  rewrite Himg.
  destruct tty.
  - destruct (Hterm eq_refl) as [x ->]. now rewrite !app_nil_r.
  - now rewrite !app_nil_r.
Qed.

(** X1: merging is idempotent -- merging the merged environment with the same
    image environment, under the same tty flag, changes nothing. *)
Theorem setEnvFromImageConfig_idempotent (tty : bool) (env imgEnv : list string) :
  vic.setEnvFromImageConfig tty (vic.setEnvFromImageConfig tty env imgEnv) imgEnv
  = vic.setEnvFromImageConfig tty env imgEnv.
Proof. apply merged_again. Qed.

(** X2: the merge only appends.  The user's environment is a prefix of the
    result, in its order; what follows it is an entry of the image's
    environment, the injected TERM=xterm or the default PATH; and every key
    of the image's environment is a key of the result. *)
Theorem setEnvFromImageConfig_extends (tty : bool) (env imgEnv : list string) :
  exists added,
    vic.setEnvFromImageConfig tty env imgEnv = env ++ added /\
    (forall e, In e added ->
       In e imgEnv \/ e = "TERM=xterm" \/ e = "PATH=" +:+ vic.defaultEnvPath) /\
    (forall e, In e imgEnv ->
       In (envKey e) (map envKey (vic.setEnvFromImageConfig tty env imgEnv))).
Proof.
  pose proof (setEnvFromImageConfig_shape tty env imgEnv) as Hs. cbv zeta in Hs.
  set (cE := (foldl vic.recordEnv ∅ (vic.setPathFromImageConfig env imgEnv)
              : gmap string string)) in Hs.
  set (tail := (if tty then match cE !! "TERM" with Some _ => [] | None => ["TERM=xterm"] end
                else [])
               ++ List.filter
                    (fun e => match cE !! envKey e with Some _ => false | None => true end)
                    imgEnv) in Hs.
  assert (Htail : forall e, In e tail -> In e imgEnv \/ e = "TERM=xterm" \/
                                         e = "PATH=" +:+ vic.defaultEnvPath).
  { intros e He. unfold tail in He. apply in_app_iff in He. destruct He as [He|He].
    - destruct tty; [|destruct He]. destruct (cE !! "TERM"); [destruct He|].
      destruct He as [<-|[]]. right. now left.
    - left. now apply List.filter_In in He. }
  unfold vic.setPathFromImageConfig in Hs.
  destruct (existsb (fun v => Go.HasPrefix v "PATH=") env).
  - exists tail. split; [exact Hs|]. split; [exact Htail|].
    intros e. apply merged_covers_image.
  - destruct (find (fun v => Go.HasPrefix v "PATH=") imgEnv) as [v|] eqn:F.
    + exists ([v] ++ tail). split; [now rewrite Hs, <- app_assoc|].
      split; [|intros e; apply merged_covers_image].
      intros e [<-|He]; [|now apply Htail].
      left. now apply find_some in F.
    + exists (["PATH=" +:+ vic.defaultEnvPath] ++ tail).
      split; [now rewrite Hs, <- app_assoc|].
      split; [|intros e; apply merged_covers_image].
      intros e [<-|He]; [|now apply Htail]. right. now right.
Qed.

(** A user environment, an image that brings a PATH and two more variables,
    a terminal requested. *)
Lemma setEnvFromImageConfig_extends_witness :
  exists added,
    vic.setEnvFromImageConfig true ["A=1"] ["PATH=/img"; "A=2"; "B=3"]
    = ["A=1"] ++ added /\
    In "B" (map envKey (vic.setEnvFromImageConfig true ["A=1"] ["PATH=/img"; "A=2"; "B=3"])).
Proof.
  destruct (setEnvFromImageConfig_extends true ["A=1"] ["PATH=/img"; "A=2"; "B=3"])
    as [added [H1 [_ H3]]].
  exists added. split; [exact H1|].
  apply (H3 "B=3"). right. right. now left.
Defined.

(** ** The create config options *)

Lemma pick_list_idempotent (own image : list string) :
  (if Nat.eqb (length (if Nat.eqb (length own) 0 then image else own)) 0
   then image else (if Nat.eqb (length own) 0 then image else own))
  = (if Nat.eqb (length own) 0 then image else own).
Proof.
  destruct own as [|x own]; simpl; [|reflexivity].
  destruct image; reflexivity.
Qed.

Lemma pick_string_idempotent (own image : string) :
  (if String.eqb (if String.eqb own "" then image else own) ""
   then image else (if String.eqb own "" then image else own))
  = (if String.eqb own "" then image else own).
Proof.
  destruct (String.eqb own "") eqn:E.
  - destruct (String.eqb image "") eqn:E'; reflexivity.
  - now rewrite E.
Qed.

(** X3: with an image config at hand setCreateConfigOptions does not panic,
    and filling in the image's defaults is idempotent: applied to its own
    result with the same image config it changes nothing. *)
Theorem setCreateConfigOptions_idempotent (config imageConfig : container.Config) :
  match vic.setCreateConfigOptions config (Some imageConfig) with
  | Go.Returned config' =>
      vic.setCreateConfigOptions config' (Some imageConfig) = Go.Returned config'
  | Go.Panicked => False
  end.
Proof.
  unfold vic.setCreateConfigOptions.
  cbn [container.User container.Tty container.OpenStdin container.StdinOnce
       container.Env container.Cmd container.Image container.Volumes
       container.WorkingDir container.Entrypoint].
  rewrite merged_again.
  rewrite !pick_list_idempotent, !pick_string_idempotent.
  f_equal. f_equal.
  destruct (container.Volumes config) as [vols|];
    destruct (container.Volumes imageConfig) as [imgVols|]; try reflexivity.
  - f_equal. rewrite <- (assoc_L (∪)). now rewrite (idemp_L (∪)).
  - f_equal. apply (idemp_L (∪)).
Qed.

(** ** Resource normalisation, continued *)

(** X4: what validateCreateConfig leaves alone and what it guarantees.  The
    name, the Config and the cpuset are never changed.  On success the host
    config is set and its CPU count is at least the minimum (MinCPUs = 1),
    whatever the input count and cpuset were; on an error the CPU count and
    the memory are as they were. *)
Theorem validateCreateConfig_frame (config : types.ContainerCreateConfig) :
  let r := vic.validateCreateConfig config in
  types.Name (fst r) = types.Name config /\
  types.Config (fst r) = types.Config config /\
  container.CpusetCpus (hostConfigOf (fst r)) = container.CpusetCpus (hostConfigOf config) /\
  match snd r with
  | None =>
      types.HostConfig (fst r) <> None /\
      (vic.MinCPUs <= container.CPUCount (hostConfigOf (fst r)))%Z
  | Some _ =>
      container.CPUCount (hostConfigOf (fst r)) = container.CPUCount (hostConfigOf config) /\
      container.Memory (hostConfigOf (fst r)) = container.Memory (hostConfigOf config)
  end.
Proof.
  cbv zeta. unfold vic.validateCreateConfig. fold (hostConfigOf config).
  destruct (types.Config config) as [cfg|] eqn:Hc; cbn [fst snd].
  - destruct (vic.cpuCountOf (hostConfigOf config)) as [cpuCount|err]; cbn [fst snd];
      cbn [vic.withHostConfig types.Name types.Config types.HostConfig hostConfigOf
           container.CPUCount container.CpusetCpus container.Memory].
    + split_ands; try reflexivity; [exact Hc | discriminate |].
      unfold vic.MinCPUs. destruct (cpuCount <? 1)%Z eqn:E; [lia|].
      now apply Z.ltb_ge in E.
    + split_ands; try reflexivity. exact Hc.
  - split_ands; try reflexivity. exact Hc.
Qed.

(** X5: a create config translated from a kube container spec always passes
    validateCreateConfig; its CPU count is the kube CPU limit when that is
    positive and the default (DefaultCPUs = 2) otherwise, and its memory is
    the normalised memory limit. *)
Theorem validateCreateConfig_of_kube_spec (cSpec : v1.Container) :
  let limits := v1.Limits (v1.Resources cSpec) in
  let r := vic.validateCreateConfig (vic.KubeSpecToDockerCreateSpec cSpec) in
  snd r = None /\
  container.CPUCount (hostConfigOf (fst r))
  = (if (0 <? v1.Value (v1.Cpu limits))%Z then v1.Value (v1.Cpu limits)
     else vic.DefaultCPUs) /\
  container.Memory (hostConfigOf (fst r)) = vic.memoryMBOf (v1.Value (v1.Memory limits)).
Proof.
  cbv zeta. unfold vic.validateCreateConfig, vic.KubeSpecToDockerCreateSpec, vic.cpuCountOf.
  cbn [types.Config types.HostConfig container.CPUCount container.CpusetCpus
       container.Memory].
  destruct (0 <? v1.Value (v1.Cpu (v1.Limits (v1.Resources cSpec))))%Z eqn:E;
    cbn [String.eqb fst snd hostConfigOf vic.withHostConfig types.HostConfig
         container.CPUCount container.Memory].
  - split_ands; try reflexivity.
    apply Z.ltb_lt in E. unfold vic.MinCPUs.
    destruct (v1.Value (v1.Cpu (v1.Limits (v1.Resources cSpec))) <? 1)%Z eqn:E';
      [apply Z.ltb_lt in E'; lia | reflexivity].
  - split_ands; reflexivity.
Qed.

(** The memory in MiB before the alignment: defaulted and floored. *)
Lemma memoryMBOf_unwrapped (memory : Z) :
  Go.is_int64 memory ->
  let q := Z.quot memory 1048576 in
  let mm := if (q =? 0)%Z then 2048%Z else if (q <? 512)%Z then 512%Z else q in
  (512 <= mm < 2 ^ 43)%Z /\
  vic.memoryMBOf memory
  = (if (Z.rem mm 128 =? 0)%Z then mm else mm + (128 - Z.rem mm 128))%Z.
Proof.
  intros H q mm.
  assert (Hq : (- 2 ^ 43 <= q < 2 ^ 43)%Z)
    by (unfold q, Go.is_int64 in *; Z.to_euclidean_division_equations; lia).
  assert (Hmm : (512 <= mm < 2 ^ 43)%Z).
  { unfold mm. destruct (q =? 0)%Z; [lia|].
    destruct (q <? 512)%Z eqn:E; [lia|]. apply Z.ltb_ge in E. lia. }
  split; [exact Hmm|].
  unfold vic.memoryMBOf, Go.div, Go.rem, vic.MiB, vic.MemoryDefaultMB, vic.MemoryMinMB,
    vic.MemoryAlignMB.
  fold q. fold mm.
  destruct (Z.rem mm 128 =? 0)%Z eqn:E; cbn [negb]; [reflexivity|].
  apply Z.eqb_neq in E.
  assert (Hr : (0 < Z.rem mm 128 < 128)%Z) by (Z.to_euclidean_division_equations; lia).
  rewrite (wrap64_id (128 - Z.rem mm 128)) by (unfold Go.is_int64; lia).
  apply wrap64_id. unfold Go.is_int64. lia.
Qed.

(** X6: how the memory is rounded.  An input of less than one MiB either way
    gives the default (2048), any other input below 512 MiB -- negative ones
    too -- gives the floor (512), and from 512 MiB on the result is the
    number of whole MiB rounded up to the next multiple of 128: never less
    than the whole MiB asked for, and less than 128 MiB more. *)
Theorem memoryMBOf_rounding (memory : Z) :
  Go.is_int64 memory ->
  let q := Go.div memory vic.MiB in
  (q = 0%Z -> vic.memoryMBOf memory = vic.MemoryDefaultMB) /\
  (q <> 0%Z -> (q < vic.MemoryMinMB)%Z -> vic.memoryMBOf memory = vic.MemoryMinMB) /\
  ((vic.MemoryMinMB <= q)%Z ->
   (q <= vic.memoryMBOf memory < q + vic.MemoryAlignMB)%Z /\
   (Go.rem q vic.MemoryAlignMB = 0%Z -> vic.memoryMBOf memory = q)).
Proof.
  intros H. destruct (memoryMBOf_unwrapped memory H) as [Hmm ->].
  unfold Go.div, Go.rem, vic.MiB, vic.MemoryDefaultMB, vic.MemoryMinMB, vic.MemoryAlignMB.
  cbv zeta. set (q := Z.quot memory 1048576) in *.
  split_ands.
  - intros ->. reflexivity.
  - intros Hq0 Hq. apply Z.eqb_neq in Hq0. apply Z.ltb_lt in Hq. now rewrite Hq0, Hq.
  - intros Hq.
    assert (E0 : (q =? 0)%Z = false) by (apply Z.eqb_neq; lia).
    assert (E1 : (q <? 512)%Z = false) by (apply Z.ltb_ge; lia).
    rewrite E0, E1 in *. split.
    + destruct (Z.rem q 128 =? 0)%Z eqn:E; [lia|].
      apply Z.eqb_neq in E. Z.to_euclidean_division_equations; lia.
    + intros Hr. apply Z.eqb_eq in Hr. now rewrite Hr.
Qed.

(** 2049 MiB: one MiB over an aligned amount costs a whole step. *)
Lemma memoryMBOf_rounding_witness :
  (2049 <= vic.memoryMBOf 2148532224 < 2049 + 128)%Z.
Proof.
  destruct (memoryMBOf_rounding 2148532224) as [_ [_ H]].
  - unfold Go.is_int64. lia.
  - apply H. vm_compute. discriminate.
Defined.

(** X7: from one MiB upward the normalised memory is monotone: asking for
    more never yields less. *)
Theorem memoryMBOf_monotone (a b : Z) :
  Go.is_int64 a -> Go.is_int64 b ->
  (vic.MiB <= a <= b)%Z ->
  (vic.memoryMBOf a <= vic.memoryMBOf b)%Z.
Proof.
  intros Ha Hb Hab.
  destruct (memoryMBOf_unwrapped a Ha) as [Hma ->].
  destruct (memoryMBOf_unwrapped b Hb) as [Hmb ->].
  unfold vic.MiB in Hab. cbv zeta in *.
  set (qa := Z.quot a 1048576) in *. set (qb := Z.quot b 1048576) in *.
  assert (Hq : (1 <= qa <= qb)%Z)
    by (unfold qa, qb; Z.to_euclidean_division_equations; lia).
  assert (Ea : (qa =? 0)%Z = false) by (apply Z.eqb_neq; lia).
  assert (Eb : (qb =? 0)%Z = false) by (apply Z.eqb_neq; lia).
  rewrite Ea in *. rewrite Eb in *.
  set (ma := if (qa <? 512)%Z then 512%Z else qa) in *.
  set (mb := if (qb <? 512)%Z then 512%Z else qb) in *.
  assert (Hm : (ma <= mb)%Z).
  { unfold ma, mb. destruct (Z.ltb_spec qa 512); destruct (Z.ltb_spec qb 512); lia. }
  clearbody ma mb.
  destruct (Z.eqb_spec (Z.rem ma 128) 0); destruct (Z.eqb_spec (Z.rem mb 128) 0);
    Z.to_euclidean_division_equations; lia.
Qed.

(** 600 MiB and 700 MiB: 640 and 768. *)
Lemma memoryMBOf_monotone_witness :
  (vic.memoryMBOf 629145600 <= vic.memoryMBOf 734003200)%Z.
Proof.
  apply memoryMBOf_monotone; unfold Go.is_int64, vic.MiB; lia.
Defined.

(** Below one MiB the order breaks: nothing at all gets more than 100 MiB. *)
Example memoryMBOf_zero_above_floor :
  (vic.memoryMBOf 104857600 < vic.memoryMBOf 0)%Z.
Proof. vm_compute. reflexivity. Qed.

(** Less than one MiB, either way, is no request at all. *)
Lemma memoryMBOf_below_MiB (memory : Z) :
  (- vic.MiB < memory < vic.MiB)%Z -> vic.memoryMBOf memory = vic.MemoryDefaultMB.
Proof.
  unfold vic.MiB. intros H.
  destruct (memoryMBOf_unwrapped memory) as [_ ->]; [unfold Go.is_int64; lia|].
  cbv zeta.
  replace (Z.quot memory 1048576) with 0%Z
    by (Z.to_euclidean_division_equations; lia).
  reflexivity.
Qed.

(** The config a successful validation leaves. *)
Lemma validateCreateConfig_result (config : types.ContainerCreateConfig)
  (cfg : container.Config) (cpuCount : Z) :
  types.Config config = Some cfg ->
  vic.cpuCountOf (hostConfigOf config) = inl cpuCount ->
  vic.validateCreateConfig config
  = (vic.withHostConfig config
       {| container.CPUCount :=
            if (cpuCount <? vic.MinCPUs)%Z then vic.MinCPUs else cpuCount;
          container.CpusetCpus := container.CpusetCpus (hostConfigOf config);
          container.Memory := vic.memoryMBOf (container.Memory (hostConfigOf config)) |},
     None).
Proof.
  intros Hc He. unfold vic.validateCreateConfig. rewrite Hc.
  fold (hostConfigOf config). now rewrite He.
Qed.

(** X8: validateCreateConfig reads the memory in bytes and writes it in MiB,
    so it is not idempotent.  Validating a validated config succeeds again and
    keeps the CPU count, but for every first input below 2^39 bytes the
    memory is reset to the default (MemoryDefaultMB = 2048). *)
Theorem validateCreateConfig_twice (config : types.ContainerCreateConfig) :
  Go.is_int64 (container.Memory (hostConfigOf config)) ->
  (container.Memory (hostConfigOf config) < 2 ^ 39)%Z ->
  snd (vic.validateCreateConfig config) = None ->
  let once := fst (vic.validateCreateConfig config) in
  let twice := vic.validateCreateConfig once in
  snd twice = None /\
  container.CPUCount (hostConfigOf (fst twice)) = container.CPUCount (hostConfigOf once) /\
  container.Memory (hostConfigOf (fst twice)) = vic.MemoryDefaultMB.
Proof.
  intros Hmem Hsmall Hok. apply validateCreateConfig_succeeds in Hok.
  destruct Hok as [Hc [cpuCount Hcpu]].
  destruct (types.Config config) as [cfg|] eqn:Hcfg; [clear Hc | congruence].
  assert (Hm : (512 <= vic.memoryMBOf (container.Memory (hostConfigOf config)) < 2 ^ 20)%Z).
  { destruct (memoryMBOf_unwrapped _ Hmem) as [Hmm ->]. cbv zeta in *.
    set (q := Z.quot (container.Memory (hostConfigOf config)) 1048576) in *.
    assert (Hq : (q < 2 ^ 19)%Z)
      by (unfold q, Go.is_int64 in *; Z.to_euclidean_division_equations; lia).
    set (mm := if (q =? 0)%Z then 2048%Z else if (q <? 512)%Z then 512%Z else q) in *.
    assert (Hmm' : (mm < 2 ^ 19)%Z).
    { unfold mm. destruct (q =? 0)%Z; [lia|]. destruct (q <? 512)%Z; lia. }
    clearbody mm.
    destruct (Z.rem mm 128 =? 0)%Z eqn:E; [lia|].
    apply Z.eqb_neq in E. Z.to_euclidean_division_equations; lia. }
  set (cpus := if (cpuCount <? vic.MinCPUs)%Z then vic.MinCPUs else cpuCount).
  assert (Hcpus : (0 < cpus)%Z).
  { unfold cpus, vic.MinCPUs. destruct (Z.ltb_spec cpuCount 1); lia. }
  set (hc1 := {| container.CPUCount := cpus;
                 container.CpusetCpus := container.CpusetCpus (hostConfigOf config);
                 container.Memory :=
                   vic.memoryMBOf (container.Memory (hostConfigOf config)) |}).
  cbv zeta.
  rewrite (validateCreateConfig_result config cfg cpuCount Hcfg Hcpu).
  cbn [fst]. fold cpus. fold hc1.
  assert (Hcpu1 : vic.cpuCountOf (hostConfigOf (vic.withHostConfig config hc1)) = inl cpus).
  { unfold vic.cpuCountOf. cbn [vic.withHostConfig hostConfigOf types.HostConfig].
    unfold hc1 at 1. cbn [container.CPUCount].
    apply Z.ltb_lt in Hcpus. now rewrite Hcpus. }
  rewrite (validateCreateConfig_result (vic.withHostConfig config hc1) cfg cpus Hcfg Hcpu1).
  cbn [fst snd vic.withHostConfig hostConfigOf types.HostConfig
       container.CPUCount container.Memory].
  split_ands; [reflexivity | |].
  - unfold hc1. cbn [container.CPUCount]. unfold vic.MinCPUs.
    destruct (Z.ltb_spec cpus 1); [lia | reflexivity].
  - unfold hc1. cbn [container.Memory].
    set (m := vic.memoryMBOf (container.Memory (hostConfigOf config))) in *.
    apply memoryMBOf_below_MiB. unfold vic.MiB. lia.
Qed.

(** 4 GiB: 4096 MiB after one validation, 2048 after two. *)
Lemma validateCreateConfig_twice_witness :
  let once := fst (vic.validateCreateConfig (createConfigWith 4 "" 4294967296)) in
  container.Memory (hostConfigOf once) = 4096%Z /\
  container.Memory (hostConfigOf (fst (vic.validateCreateConfig once))) = 2048%Z.
Proof.
  cbv zeta. split; [vm_compute; reflexivity|].
  apply (validateCreateConfig_twice (createConfigWith 4 "" 4294967296)).
  - unfold Go.is_int64. simpl. lia.
  - simpl. lia.
  - reflexivity.
Defined.

(** ** Pod creation, continued *)

(** One container: an error exactly when the store's answer carries one, and
    no failure line of [CreatePod]'s own. *)
Lemma createContainer_outcome {Store : Type}
  (get : string -> Store -> (option metadata.ImageConfig * option string) * Store)
  (c : v1.Container) (w : vic.World Store) :
  answersOrFails get ->
  exists err,
    fst (vic.createContainer get (vic.KubeSpecToDockerCreateSpec c) w) = Go.Returned err /\
    (match err with Some _ => true | None => false end
     = failed (fst (get (v1.Image c) (vic.store w)))) /\
    failuresLogged
      (vic.trace (snd (vic.createContainer get (vic.KubeSpecToDockerCreateSpec c) w)))
    = failuresLogged (vic.trace w).
Proof.
  intros Hget. specialize (Hget (v1.Image c) (vic.store w)).
  unfold vic.createContainer, vic.KubeSpecToDockerCreateSpec, failed.
  cbn [types.Config container.Image]. step_pod.
  destruct (get (v1.Image c) (vic.store w)) as [[img [e|]] s']; cbn [fst snd] in *.
  - destruct img; step_pod; (eexists; split_ands; [reflexivity | reflexivity |]);
      unfold failuresLogged; rewrite !omap_app; simpl; now rewrite !app_nil_r.
  - destruct img as [img|]; [|destruct Hget].
    unfold vic.setCreateConfigOptions.
    destruct (metadata.Config img) as [icfg|]; [|congruence].
    step_pod. eexists. split_ands; [reflexivity | reflexivity |].
    unfold failuresLogged. rewrite !omap_app. simpl. now rewrite !app_nil_r.
Qed.

Lemma createContainers_failures {Store : Type}
  (get : string -> Store -> (option metadata.ImageConfig * option string) * Store)
  (answer : string -> option metadata.ImageConfig * option string)
  (podName : string) (cs : list v1.Container) (w : vic.World Store) :
  (forall image s, fst (get image s) = answer image) ->
  answersOrFails get ->
  failuresLogged (vic.trace (snd (vic.createContainers get podName cs w)))
  = failuresLogged (vic.trace w)
    ++ map (fun c => [v1.Name c; podName])
         (List.filter (fun c => failed (answer (v1.Image c))) cs).
Proof.
  intros Hans Hget. revert w. induction cs as [|c cs IH]; intros w.
  - simpl. now rewrite app_nil_r.
  - cbn [vic.createContainers List.filter]. unfold Go.bind.
    destruct (createContainer_outcome get c w Hget) as [err [Hr [Hf Ht]]].
    rewrite Hans in Hf.
    destruct (vic.createContainer get (vic.KubeSpecToDockerCreateSpec c) w) as [r w1].
    cbn [fst snd] in Hr, Ht. subst r. rewrite <- Hf.
    destruct err as [e|]; step_pod; rewrite IH; cbn [vic.trace map].
    + unfold failuresLogged at 1. rewrite omap_app.
      fold (failuresLogged (vic.trace w1)). rewrite Ht. simpl.
      now rewrite <- app_assoc.
    + now rewrite Ht.
Qed.



(** X10: a store that answers a nil image with a nil error, or an image
    without a config, makes CreatePod panic at that container: when it is the
    first container of the pod, no other container is attempted. *)
Theorem CreatePod_panics_on_nil_image {Store : Type}
  (get : string -> Store -> (option metadata.ImageConfig * option string) * Store)
  (pod : v1.Pod) (w : vic.World Store) (c : v1.Container) (rest : list v1.Container) :
  v1.Containers pod = c :: rest ->
  (fst (get (v1.Image c) (vic.store w)) = (None, None) \/
   exists img, fst (get (v1.Image c) (vic.store w)) = (Some img, None) /\
               metadata.Config img = None) ->
  fst (vic.CreatePod get pod w) = Go.Panicked /\
  imagesAsked (vic.trace (snd (vic.CreatePod get pod w)))
  = imagesAsked (vic.trace w) ++ [v1.Image c].
Proof.
  intros Hcs Hnil. unfold vic.CreatePod. rewrite Hcs.
  cbn [vic.createContainers]. unfold vic.createContainer, vic.KubeSpecToDockerCreateSpec.
  cbn [types.Config container.Image]. step_pod.
  destruct (get (v1.Image c) (vic.store w)) as [a s']. cbn [fst] in Hnil.
  destruct Hnil as [->|[img [-> Himg]]].
  - step_pod. split; [reflexivity|].
    unfold imagesAsked. rewrite omap_app. reflexivity.
  - unfold vic.setCreateConfigOptions. rewrite Himg. step_pod.
    split; [reflexivity|].
    unfold imagesAsked. rewrite omap_app. reflexivity.
Qed.

Lemma CreatePod_panics_on_nil_image_witness :
  fst (vic.CreatePod silentStore threeContainers {| vic.store := tt; vic.trace := [] |})
  = Go.Panicked /\
  imagesAsked
    (vic.trace (snd (vic.CreatePod silentStore threeContainers
                       {| vic.store := tt; vic.trace := [] |})))
  = ["missing"].
Proof.
  apply (CreatePod_panics_on_nil_image silentStore threeContainers
           {| vic.store := tt; vic.trace := [] |}
           (kubeContainer "a" "missing")
           [kubeContainer "b" "busybox"; kubeContainer "c" "missing"]).
  - reflexivity.
  - left. reflexivity.
Defined.

(** ** The image store, continued *)

(** X11: PullImage sends exactly one POST, with content type
    application/json, to the persona's images/create address -- with a tag
    parameter exactly when the tag is not empty; it returns nil exactly when
    that POST is answered with status 200 and a body that can be read; and
    the user name and the password it is given play no part. *)
Theorem PullImage_one_post {Remote : Type}
  (http_Post : string -> string -> Remote -> (proxy.HttpResponse + string) * Remote)
  (v : proxy.VicImageStore Remote) (image tag username password : string)
  (w : proxy.World Remote) :
  let url := pullURL (proxy.personaAddr v) image tag in
  let answer := http_Post url "application/json" (proxy.remote w) in
  let out := proxy.PullImage http_Post v image tag username password w in
  posts (proxy.trace (snd out)) = posts (proxy.trace w) ++ [(url, "application/json")] /\
  proxy.remote (snd out) = snd answer /\
  (fst out = None <->
   exists resp body,
     fst answer = inl resp /\ proxy.StatusCode resp = 200%Z /\ proxy.Body resp = inl body) /\
  (forall username' password',
     proxy.PullImage http_Post v image tag username' password' w = out).
Proof.
  cbv zeta. unfold proxy.PullImage. fold (pullURL (proxy.personaAddr v) image tag).
  set (url := pullURL (proxy.personaAddr v) image tag). step_world.
  destruct (http_Post url "application/json" (proxy.remote w)) as [[resp|msg] r'];
    step_world.
  - destruct (Z.eqb_spec (proxy.StatusCode resp) 200) as [E|E]; cbn [negb].
    + destruct (proxy.Body resp) as [body|rerr] eqn:B; step_world.
      * split_ands; try reflexivity.
        -- unfold posts. rewrite !omap_app. simpl. now rewrite !app_nil_r.
        -- split; [intros _; eauto | reflexivity].
      * split_ands; try reflexivity.
        -- unfold posts. rewrite !omap_app. simpl. now rewrite !app_nil_r.
        -- split; [discriminate|]. intros (resp' & body & [= <-] & _ & H). congruence.
    + step_world. split_ands; try reflexivity.
      * unfold posts. rewrite !omap_app. simpl. now rewrite !app_nil_r.
      * split; [discriminate|]. intros (resp' & body & [= <-] & H & _). congruence.
  - split_ands; try reflexivity.
    + unfold posts. rewrite !omap_app. simpl. now rewrite !app_nil_r.
    + split; [discriminate|]. intros (resp' & body & H & _). discriminate.
Qed.

(** X12: Get pulls only after a failed lookup with actuate set.  On a cache
    hit, and whenever actuate is false, it does one cache lookup and nothing
    else -- no POST, the remote state untouched -- and returns the config of
    that lookup with a nil error. *)
Theorem Get_without_pull {Remote : Type}
  (cache_Get : string -> Remote -> option metadata.ImageConfig * option string)
  (http_Post : string -> string -> Remote -> (proxy.HttpResponse + string) * Remote)
  (v : proxy.VicImageStore Remote) (idOrRef tag : string) (actuate : bool)
  (w : proxy.World Remote) :
  snd (cache_Get idOrRef (proxy.remote w)) = None \/ actuate = false ->
  proxy.Get cache_Get http_Post v idOrRef tag actuate w
  = ((fst (cache_Get idOrRef (proxy.remote w)), None),
     {| proxy.remote := proxy.remote w;
        proxy.trace := proxy.trace w ++ [proxy.CacheGet idOrRef] |}).
Proof.
  intros H. unfold proxy.Get, proxy.lookup. step_world.
  destruct (cache_Get idOrRef (proxy.remote w)) as [c [e|]]; cbn [fst snd] in *.
  - destruct H as [H| ->]; [discriminate | reflexivity].
  - reflexivity.
Qed.

(** A cached image with actuate set, and an image that is not cached with
    actuate unset. *)
Lemma Get_without_pull_witness :
  fst (proxy.Get busyboxCache unreachablePersona (imageStoreAt "persona:2376")
         "busybox" "latest" true (start 0))
  = (Some {| metadata.ImageID := "busybox";
             metadata.Config := Some container.zeroConfig |}, None) /\
  proxy.Get busyboxCache unreachablePersona (imageStoreAt "persona:2376")
    "nginx" "latest" false (start 0)
  = ((None, None), {| proxy.remote := 0; proxy.trace := [proxy.CacheGet "nginx"] |}).
Proof.
  split.
  - rewrite (Get_without_pull busyboxCache unreachablePersona
               (imageStoreAt "persona:2376") "busybox" "latest" true (start 0));
      [reflexivity | left; reflexivity].
  - apply (Get_without_pull busyboxCache unreachablePersona
             (imageStoreAt "persona:2376") "nginx" "latest" false (start 0)).
    right. reflexivity.
Defined.

(** ** The handle pipeline, continued *)

(** X13: CreateHandleTask threads the handle.  It sends at most one join and
    at most one bind; a bind is sent only after the join was answered with a
    string handle, and it carries that handle and the caller's id; a
    successful call returns the handle the bind was answered with; and every
    error comes with the empty handle. *)
Theorem CreateHandleTask_threads_handle {Remote : Type}
  (v : proxy.VicIsolationProxy Remote) (handle id layerID : string)
  (config : proxy.IsolationContainerConfig) (r : Remote) :
  let out := proxy.CreateHandleTask v handle id layerID config (start r) in
  let t := proxy.trace (snd out) in
  (forall h e, fst out = Go.Returned (h, Some e) -> h = "") /\
  (length (bindRequests t) <= length (joinRequests t) <= 1) /\
  (forall pl b, proxy.client v = Some pl -> In b (bindRequests t) ->
     models.BindID b = id /\
     exists task,
       joinRequests t = [task] /\
       fst (proxy.Tasks_Join pl task r) = inl (models.IString (models.BindHandle b))) /\
  (forall pl h, proxy.client v = Some pl -> fst out = Go.Returned (h, None) ->
     exists task b,
       joinRequests t = [task] /\ bindRequests t = [b] /\
       fst (proxy.Tasks_Bind pl b (snd (proxy.Tasks_Join pl task r)))
       = inl (models.IString h)).
Proof.
  cbv zeta. unfold proxy.CreateHandleTask, proxy.IsolationContainerConfigToTask, start.
  destruct (proxy.client v) as [pl|];
    [destruct (proxy.resolveTask config) as [[path args]|]|].
  - step_world.
    match goal with
    | |- context [proxy.Tasks_Join pl ?t r] =>
        destruct (proxy.Tasks_Join pl t r) as [[[h1|]|msg] r1] eqn:J
    end; step_world.
    + match goal with
      | |- context [proxy.Tasks_Bind pl ?t r1] =>
          destruct (proxy.Tasks_Bind pl t r1) as [[[h2|]|msg] r2] eqn:B
      end; step_world; split_ands;
        try congruence; try (simpl; lia); try discriminate;
        try (intros pl' b [= <-] [<-|[]]; split; [reflexivity|];
             eexists; split; [reflexivity|]; now rewrite J).
      intros pl' h [= <-] [= <-]. do 2 eexists. split; [reflexivity|].
      split; [reflexivity|]. rewrite J. cbn [snd]. now rewrite B.
    + split_ands; try congruence; try (simpl; lia); try discriminate;
        try (intros ? ? _ []).
    + split_ands; try congruence; try (simpl; lia); try discriminate;
        try (intros ? ? _ []).
  - step_world. split_ands; try congruence; try (simpl; lia); try discriminate;
      try (intros ? ? _ []).
  - step_world. split_ands; try congruence; try (simpl; lia); try discriminate.
Qed.

(** On an accepting port layer: the bind carries the handle of the join, and
    the call returns the handle of the bind. *)
Lemma CreateHandleTask_threads_handle_witness :
  exists task b,
    joinRequests
      (proxy.trace
         (snd (proxy.CreateHandleTask (proxyOver acceptingLayer) "handle-0" "id" "layer"
                 (isolationConfigWith ["/bin/true"] [] false false false false ∅)
                 (start 0)))) = [task] /\
    bindRequests
      (proxy.trace
         (snd (proxy.CreateHandleTask (proxyOver acceptingLayer) "handle-0" "id" "layer"
                 (isolationConfigWith ["/bin/true"] [] false false false false ∅)
                 (start 0)))) = [b] /\
    fst (proxy.Tasks_Bind acceptingLayer b (snd (proxy.Tasks_Join acceptingLayer task 0)))
    = inl (models.IString "handle-bound").
Proof.
  destruct (CreateHandleTask_threads_handle (proxyOver acceptingLayer) "handle-0" "id" "layer"
              (isolationConfigWith ["/bin/true"] [] false false false false ∅) 0)
    as [_ [_ [_ H]]].
  apply (H acceptingLayer "handle-bound" eq_refl). reflexivity.
Defined.

(** X14: with a client, AddHandleToScope sends exactly one scope join, to the
    scope default, for the input handle, whatever the port map holds.  The
    join lists one hostPort:containerPort string for each entry of the port
    map.  When the call returns an error the handle that comes with it is the
    input handle; when it returns none, the handle is the one the join was
    answered with. *)
Theorem AddHandleToScope_one_join {Remote : Type}
  (v : proxy.VicIsolationProxy Remote) (pl : proxy.PortLayer Remote)
  (handle : string) (config : proxy.IsolationContainerConfig)
  (w : proxy.World Remote) :
  proxy.client v = Some pl ->
  let out := proxy.AddHandleToScope v handle config w in
  let request := scopeJoinOf handle config in
  scopeJoins (proxy.trace (snd out))
  = scopeJoins (proxy.trace w) ++ [proxy.ScopesAddContainer "default" request] /\
  length (models.Ports (models.ScopeNetworkConfig request)) = size (proxy.PortMap config) /\
  (forall key binding, proxy.PortMap config !! key = Some binding ->
     In (proxy.HostPort binding +:+ ":" +:+ key)
        (models.Ports (models.ScopeNetworkConfig request))) /\
  (forall e, snd (fst out) = Some e -> fst (fst out) = handle) /\
  (snd (fst out) = None ->
   fst (proxy.Scopes_AddContainer pl "default" request (proxy.remote w))
   = inl (fst (fst out))).
Proof.
  intros Hc. cbv zeta.
  rewrite (AddHandleToScope_run v pl handle config w Hc). cbv zeta.
  split_ands.
  - destruct (proxy.Scopes_AddContainer pl "default" (scopeJoinOf handle config)
                (proxy.remote w)) as [[payload|msg] r'];
      cbn [snd proxy.trace]; unfold scopeJoins; rewrite List.filter_app; reflexivity.
  - unfold scopeJoinOf. cbn [models.Ports models.ScopeNetworkConfig].
    now rewrite length_fmap, length_map_to_list.
  - intros key binding Hk. unfold scopeJoinOf.
    cbn [models.Ports models.ScopeNetworkConfig].
    apply list_elem_of_In.
    apply (list_elem_of_fmap_2
             (fun kv : string * proxy.PortBinding =>
                proxy.HostPort (snd kv) +:+ ":" +:+ fst kv)
             (map_to_list (proxy.PortMap config)) (key, binding)).
    now apply elem_of_map_to_list.
  - destruct (proxy.Scopes_AddContainer pl "default" (scopeJoinOf handle config)
                (proxy.remote w)) as [[payload|msg] r']; cbn [fst snd];
      [discriminate | reflexivity].
  - destruct (proxy.Scopes_AddContainer pl "default" (scopeJoinOf handle config)
                (proxy.remote w)) as [[payload|msg] r']; cbn [fst snd];
      [reflexivity | discriminate].
Qed.

(** The web server's port map on an accepting port layer. *)
Lemma AddHandleToScope_one_join_witness :
  let config := isolationConfigWith ["nginx"] [] false false false false webPorts in
  scopeJoins
    (proxy.trace (snd (proxy.AddHandleToScope (proxyOver acceptingLayer) "handle-0" config
                         (start 0))))
  = [proxy.ScopesAddContainer "default" (scopeJoinOf "handle-0" config)] /\
  In "8080:80" (models.Ports (models.ScopeNetworkConfig (scopeJoinOf "handle-0" config))).
Proof.
  cbv zeta.
  destruct (AddHandleToScope_one_join (proxyOver acceptingLayer) acceptingLayer "handle-0"
              (isolationConfigWith ["nginx"] [] false false false false webPorts)
              (start 0) eq_refl) as [H1 [_ [H3 _]]].
  split; [exact H1|].
  apply (H3 "80" {| proxy.HostIP := "0.0.0.0"; proxy.HostPort := "8080" |}).
  apply lookup_singleton_eq.
Defined.

(** ** The other steps of the isolation proxy *)

Lemma joined_handle (format : string) (response : models.iface + isolation.RemoteError)
  (h : string) :
  isolation.joined format response = (h, None) <-> response = inl (models.IString h).
Proof.
  unfold isolation.joined. destruct response as [[s|]|e]; split; congruence.
Qed.

Lemma joined_error (format : string) (response : models.iface + isolation.RemoteError)
  (e : isolation.error) :
  snd (isolation.joined format response) = Some e ->
  fst (isolation.joined format response) = "" /\
  exists msg, e = isolation.InternalServerError msg.
Proof.
  unfold isolation.joined. destruct response as [[s|]|err]; cbn [fst snd];
    [discriminate | |]; intros [= <-]; eauto.
Qed.

(** The host identity, as the steps obtain it. *)
Lemma hostUUID_run {Remote : Type} (RunningInVCH : bool) (HostUUID : string)
  (sys_UUID : Remote -> string + string) (w : isolation.World Remote) :
  isolation.hostUUID RunningInVCH HostUUID sys_UUID w
  = (hostOf RunningInVCH HostUUID sys_UUID (isolation.remote w), w).
Proof. unfold isolation.hostUUID, hostOf. now destruct RunningInVCH. Qed.

(** [CreateHandle] with a client, by the host identity and the answer to the
    create request. *)
Lemma CreateHandle_run {Remote : Type}
  (RunningInVCH : bool) (HostUUID : string) (sys_UUID : Remote -> string + string)
  (Containers_Create :
     isolation.ContainerCreateConfig -> Remote ->
     (string * string + isolation.RemoteError) * Remote)
  (v : proxy.VicIsolationProxy Remote) (pl : proxy.PortLayer Remote)
  (w : isolation.World Remote) :
  proxy.client v = Some pl ->
  isolation.CreateHandle RunningInVCH HostUUID sys_UUID Containers_Create v w =
  match hostOf RunningInVCH HostUUID sys_UUID (isolation.remote w) with
  | inr _ =>
      (("", "",
        Some (isolation.InternalServerError
                (Go.Lit "ContainerProxy.CreateContainerHandle got unexpected error getting VCH UUID"))),
       w)
  | inl host =>
      let request :=
        isolation.initIsolationConfig "" proxy.DummyRepoName proxy.DummyImage
          proxy.DummyLayerID host in
      let sent :=
        isolation.trace w ++
        [isolation.LogCreate proxy.LDebug
           (Go.Lit "dockerContainerCreateParamsToPortlayer = %+v") request;
         isolation.ContainersCreate request] in
      match Containers_Create request (isolation.remote w) with
      | (inl (id, h), r') =>
          ((id, h, None), {| isolation.remote := r'; isolation.trace := sent |})
      | (inr (isolation.NotFound text), r') =>
          (("", "",
            Some (isolation.NotFoundError
                    (Go.Sprintf (Go.Lit "No such image: %s")
                       [Go.OpString proxy.DummyImage]))),
           {| isolation.remote := r';
              isolation.trace :=
                sent ++
                [isolation.Logf proxy.LError (Go.Lit "%s (%s)")
                   [Go.OpText (Go.Sprintf (Go.Lit "No such image: %s")
                                 [Go.OpString proxy.DummyImage]);
                    Go.OpString text]] |})
      | (inr err, r') =>
          (("", "", Some (isolation.InternalServerError (Go.Lit (isolation.Error err)))),
           {| isolation.remote := r'; isolation.trace := sent |})
      end
  end.
Proof.
  intros Hc. unfold isolation.CreateHandle. rewrite Hc.
  unfold Go.bind at 1. rewrite hostUUID_run.
  destruct (hostOf RunningInVCH HostUUID sys_UUID (isolation.remote w)) as [host|msg];
    [|reflexivity].
  cbv zeta. step_iso.
  destruct (Containers_Create
              (isolation.initIsolationConfig "" proxy.DummyRepoName proxy.DummyImage
                 proxy.DummyLayerID host) (isolation.remote w))
    as [[[id0 h0]|[t|t|m t|t]] r']; step_iso; now rewrite <- ?app_assoc.
Qed.

(** X15: CreateHandle allocates the skeleton with a placeholder.  Without a
    host identity (in a VCH whose UUID cannot be read) it sends nothing and
    fails with an internal error; otherwise it sends exactly one create
    request, for the busybox placeholder image and layer with the network
    disabled, 2 CPUs and 512 MB, in the image store named after the host.  It
    returns the id and the handle of the reply, and every error comes with an
    empty id and an empty handle. *)
Theorem CreateHandle_placeholder {Remote : Type}
  (RunningInVCH : bool) (HostUUID : string) (sys_UUID : Remote -> string + string)
  (Containers_Create :
     isolation.ContainerCreateConfig -> Remote ->
     (string * string + isolation.RemoteError) * Remote)
  (v : proxy.VicIsolationProxy Remote) (pl : proxy.PortLayer Remote)
  (w : isolation.World Remote) :
  proxy.client v = Some pl ->
  let out := isolation.CreateHandle RunningInVCH HostUUID sys_UUID Containers_Create v w in
  (forall msg, hostOf RunningInVCH HostUUID sys_UUID (isolation.remote w) = inr msg ->
     snd out = w /\ exists text, snd (fst out) = Some (isolation.InternalServerError text)) /\
  (forall host, hostOf RunningInVCH HostUUID sys_UUID (isolation.remote w) = inl host ->
     let request :=
       {| isolation.NumCpus := 2; isolation.MemoryMB := 512;
          isolation.Layer := proxy.DummyLayerID; isolation.Image := proxy.DummyImage;
          isolation.RepoName := "busybox"; isolation.Name := "";
          isolation.ImageStore := host; isolation.NetworkDisabled := true;
          isolation.Hostname := "test-kubelet" |} in
     requests (isolation.trace (snd out))
     = requests (isolation.trace w) ++ [isolation.ContainersCreate request] /\
     isolation.remote (snd out) = snd (Containers_Create request (isolation.remote w)) /\
     (forall id h,
        fst out = (id, h, None) <->
        fst (Containers_Create request (isolation.remote w)) = inl (id, h))) /\
  (forall e, snd (fst out) = Some e -> fst (fst out) = ("", "")).
Proof.
  intros Hc. cbv zeta.
  rewrite (CreateHandle_run RunningInVCH HostUUID sys_UUID Containers_Create v pl w Hc).
  destruct (hostOf RunningInVCH HostUUID sys_UUID (isolation.remote w)) as [host|msg].
  - cbv zeta. unfold isolation.initIsolationConfig, proxy.DefaultCPUs, proxy.DefaultMemory,
      proxy.DummyRepoName.
    match goal with
    | |- context [Containers_Create ?c (isolation.remote w)] =>
        destruct (Containers_Create c (isolation.remote w))
          as [[[id0 h0]|[t|t|m t|t]] r'] eqn:E
    end; cbn [fst snd isolation.trace isolation.remote];
      (split_ands; [discriminate | | intros e; congruence]);
      (intros h [= <-]; rewrite E; cbn [fst snd]; split_ands;
       [unfold requests; rewrite !List.filter_app; simpl; now rewrite ?app_nil_r
       | reflexivity
       | intros id h; split; congruence]).
  - cbn [fst snd]. split_ands; [|discriminate|intros e _; reflexivity].
    intros m _. split; [reflexivity | eauto].
Qed.

(** Outside a VCH, on a port layer that accepts the request. *)
Lemma CreateHandle_placeholder_witness :
  fst (isolation.CreateHandle false "host-1" uuidUnknown createAccepted
         (proxyOver acceptingLayer) (begin 0))
  = ("container-1", "handle-0", None).
Proof.
  destruct (CreateHandle_placeholder false "host-1" uuidUnknown createAccepted
              (proxyOver acceptingLayer) acceptingLayer (begin 0) eq_refl)
    as [_ [H _]].
  destruct (H "host-1" eq_refl) as [_ [_ H']]. apply H'. reflexivity.
Defined.

(** [AddImageToHandle] with a client. *)
Lemma AddImageToHandle_run {Remote : Type}
  (RunningInVCH : bool) (HostUUID : string) (sys_UUID : Remote -> string + string)
  (Storage_ImageJoin :
     string -> string -> isolation.ImageJoinConfig -> Remote ->
     (models.iface + isolation.RemoteError) * Remote)
  (v : proxy.VicIsolationProxy Remote) (pl : proxy.PortLayer Remote)
  (handle deltaID layerID imageID imageName : string) (w : isolation.World Remote) :
  proxy.client v = Some pl ->
  isolation.AddImageToHandle RunningInVCH HostUUID sys_UUID Storage_ImageJoin v
    handle deltaID layerID imageID imageName w =
  match hostOf RunningInVCH HostUUID sys_UUID (isolation.remote w) with
  | inr _ =>
      (("", Some (isolation.InternalServerError
                    (Go.Lit "ContainerProxy.AddImageToContainer got unexpected error getting VCH UUID"))),
       w)
  | inl host =>
      let request :=
        {| isolation.JoinHandle := handle; isolation.DeltaID := deltaID;
           isolation.ImageID := imageID; isolation.JoinRepoName := imageName |} in
      (isolation.joined "Type assertion failed for %#+v"
         (fst (Storage_ImageJoin host layerID request (isolation.remote w))),
       {| isolation.remote := snd (Storage_ImageJoin host layerID request (isolation.remote w));
          isolation.trace :=
            isolation.trace w ++ [isolation.StorageImageJoin host layerID request] |})
  end.
Proof.
  intros Hc. unfold isolation.AddImageToHandle. rewrite Hc.
  unfold Go.bind at 1. rewrite hostUUID_run.
  destruct (hostOf RunningInVCH HostUUID sys_UUID (isolation.remote w)) as [host|msg];
    [|reflexivity].
  cbv zeta. step_iso.
  now destruct (Storage_ImageJoin host layerID _ (isolation.remote w)).
Qed.

(** X16: AddImageToHandle joins the image layer.  Without a host identity it
    sends nothing; otherwise it sends exactly one image join, to the store
    named after the host and for the given layer, carrying the input handle,
    the delta id, the image id and the image name.  It returns a handle with
    a nil error exactly when the join is answered with a string handle -- that
    handle; every error is an internal error and comes with the empty
    handle. *)
Theorem AddImageToHandle_join {Remote : Type}
  (RunningInVCH : bool) (HostUUID : string) (sys_UUID : Remote -> string + string)
  (Storage_ImageJoin :
     string -> string -> isolation.ImageJoinConfig -> Remote ->
     (models.iface + isolation.RemoteError) * Remote)
  (v : proxy.VicIsolationProxy Remote) (pl : proxy.PortLayer Remote)
  (handle deltaID layerID imageID imageName : string) (w : isolation.World Remote) :
  proxy.client v = Some pl ->
  let out := isolation.AddImageToHandle RunningInVCH HostUUID sys_UUID Storage_ImageJoin v
               handle deltaID layerID imageID imageName w in
  (forall msg, hostOf RunningInVCH HostUUID sys_UUID (isolation.remote w) = inr msg ->
     snd out = w) /\
  (forall host, hostOf RunningInVCH HostUUID sys_UUID (isolation.remote w) = inl host ->
     let request :=
       {| isolation.JoinHandle := handle; isolation.DeltaID := deltaID;
          isolation.ImageID := imageID; isolation.JoinRepoName := imageName |} in
     isolation.trace (snd out)
     = isolation.trace w ++ [isolation.StorageImageJoin host layerID request] /\
     (forall h,
        fst out = (h, None) <->
        fst (Storage_ImageJoin host layerID request (isolation.remote w))
        = inl (models.IString h))) /\
  (forall e, snd (fst out) = Some e ->
     fst (fst out) = "" /\ exists msg, e = isolation.InternalServerError msg).
Proof.
  intros Hc. cbv zeta.
  rewrite (AddImageToHandle_run RunningInVCH HostUUID sys_UUID Storage_ImageJoin v pl
             handle deltaID layerID imageID imageName w Hc).
  destruct (hostOf RunningInVCH HostUUID sys_UUID (isolation.remote w)) as [host|msg];
    cbv zeta; cbn [fst snd isolation.trace]; split_ands.
  - discriminate.
  - intros h [= <-]. split; [reflexivity|]. intros h'. apply joined_handle.
  - intros e. apply joined_error.
  - reflexivity.
  - discriminate.
  - intros e [= <-]. eauto.
Qed.

(** In a VCH whose UUID is known, on a store that accepts the join. *)
Lemma AddImageToHandle_join_witness :
  fst (isolation.AddImageToHandle true "unused" uuidKnown imageJoinAccepted
         (proxyOver acceptingLayer) "handle-0" "delta" "layer" "image" "busybox" (begin 0))
  = ("handle-image", None).
Proof.
  destruct (AddImageToHandle_join true "unused" uuidKnown imageJoinAccepted
              (proxyOver acceptingLayer) acceptingLayer
              "handle-0" "delta" "layer" "image" "busybox" (begin 0) eq_refl)
    as [_ [H _]].
  destruct (H "vch-uuid" eq_refl) as [_ H']. apply H'. reflexivity.
Defined.



(** X18: CommitHandle, with a client, sends exactly one commit for the
    handle.  The wait time is part of the request only when it is positive.
    The call returns nil exactly when the commit is accepted; a commit the
    remote does not know is reported as not found under the container id the
    caller gave, a conflict as a conflict with the remote's text, and a
    default response as an internal error with the payload's message. *)
Theorem CommitHandle_commit {Remote : Type}
  (Containers_Commit :
     string -> option Z -> Remote -> (unit + isolation.RemoteError) * Remote)
  (v : proxy.VicIsolationProxy Remote) (pl : proxy.PortLayer Remote)
  (handle containerID : string) (waitTime : Z) (w : isolation.World Remote) :
  proxy.client v = Some pl ->
  let out := isolation.CommitHandle Containers_Commit v handle containerID waitTime w in
  exists wait,
    isolation.trace (snd out) = isolation.trace w ++ [isolation.ContainersCommit handle wait] /\
    ((waitTime <= 0)%Z -> wait = None) /\
    ((0 < waitTime)%Z -> wait = Some waitTime) /\
    isolation.remote (snd out) = snd (Containers_Commit handle wait (isolation.remote w)) /\
    (fst out = None <-> fst (Containers_Commit handle wait (isolation.remote w)) = inl tt) /\
    (forall text,
       fst (Containers_Commit handle wait (isolation.remote w))
       = inr (isolation.NotFound text) ->
       fst out = Some (isolation.NotFoundError (Go.Lit containerID))) /\
    (forall text,
       fst (Containers_Commit handle wait (isolation.remote w))
       = inr (isolation.Conflict text) ->
       fst out = Some (isolation.ConflictError (Go.Lit text))) /\
    (forall message text,
       fst (Containers_Commit handle wait (isolation.remote w))
       = inr (isolation.Default message text) ->
       fst out = Some (isolation.InternalServerError (Go.Lit message))).
Proof.
  intros Hc. cbv zeta. unfold isolation.CommitHandle. rewrite Hc.
  exists (if (0 <? waitTime)%Z then Some waitTime else None).
  set (wait := if (0 <? waitTime)%Z then Some waitTime else None). step_iso.
  assert (Hle : (waitTime <= 0)%Z -> wait = None)
    by (intros H; unfold wait; destruct (Z.ltb_spec 0 waitTime); [lia | reflexivity]).
  assert (Hlt : (0 < waitTime)%Z -> wait = Some waitTime)
    by (intros H; unfold wait; destruct (Z.ltb_spec 0 waitTime); [reflexivity | lia]).
  destruct (Containers_Commit handle wait (isolation.remote w)) as [[[]|[t|t|m t|t]] r'];
    step_iso; split_ands; try reflexivity; try assumption; try congruence;
    try (split; congruence).
Qed.

(** A wait of zero seconds is left out of the request; an unknown container
    is reported under its id. *)
Lemma CommitHandle_commit_witness :
  isolation.CommitHandle commitUnknown (proxyOver acceptingLayer)
    "handle-9" "container-1" 0 (begin 0)
  = (Some (isolation.NotFoundError (Go.Lit "container-1")),
     {| isolation.remote := 1;
        isolation.trace := [isolation.ContainersCommit "handle-9" None] |}).
Proof.
  destruct (CommitHandle_commit commitUnknown (proxyOver acceptingLayer) acceptingLayer
              "handle-9" "container-1" 0 (begin 0) eq_refl)
    as [wait [Ht [Hle [_ [Hr [_ [Hnf _]]]]]]].
  rewrite (Hle ltac:(lia)) in *.
  destruct (isolation.CommitHandle commitUnknown (proxyOver acceptingLayer)
              "handle-9" "container-1" 0 (begin 0)) as [e [r t]].
  cbn [fst snd isolation.trace isolation.remote] in *.
  rewrite (Hnf _ eq_refl), Ht, Hr. reflexivity.
Defined.

(** X19: Handle and SetState, with a client, send exactly one request (a get
    for the id, a state change for the handle and the state) and return the
    payload of the reply with a nil error when it succeeds.  A not-found
    response is reported as not found under the name the caller gave,
    whatever the remote's text; a default response as an internal error with
    the payload's message; and every error comes with the empty handle. *)
Theorem Handle_and_SetState {Remote : Type}
  (Containers_Get : string -> Remote -> (string + isolation.RemoteError) * Remote)
  (Containers_StateChange :
     string -> string -> Remote -> (string + isolation.RemoteError) * Remote)
  (v : proxy.VicIsolationProxy Remote) (pl : proxy.PortLayer Remote)
  (id name handle state : string) (w : isolation.World Remote) :
  proxy.client v = Some pl ->
  let got := isolation.Handle Containers_Get v id name w in
  let set := isolation.SetState Containers_StateChange v handle name state w in
  let getAnswer := fst (Containers_Get id (isolation.remote w)) in
  let setAnswer := fst (Containers_StateChange handle state (isolation.remote w)) in
  isolation.trace (snd got) = isolation.trace w ++ [isolation.ContainersGet id] /\
  isolation.trace (snd set)
  = isolation.trace w ++ [isolation.ContainersStateChange handle state] /\
  (forall h, fst got = (h, None) <-> getAnswer = inl h) /\
  (forall h, fst set = (h, None) <-> setAnswer = inl h) /\
  (forall text, getAnswer = inr (isolation.NotFound text) ->
     fst got = ("", Some (isolation.NotFoundError (Go.Lit name)))) /\
  (forall text, setAnswer = inr (isolation.NotFound text) ->
     fst set = ("", Some (isolation.NotFoundError (Go.Lit name)))) /\
  (forall message text, getAnswer = inr (isolation.Default message text) ->
     fst got = ("", Some (isolation.InternalServerError (Go.Lit message)))) /\
  (forall message text, setAnswer = inr (isolation.Default message text) ->
     fst set = ("", Some (isolation.InternalServerError (Go.Lit message)))) /\
  (forall e, snd (fst got) = Some e -> fst (fst got) = "") /\
  (forall e, snd (fst set) = Some e -> fst (fst set) = "").
Proof.
  intros Hc. cbv zeta. unfold isolation.Handle, isolation.SetState. rewrite Hc.
  step_iso.
  destruct (Containers_Get id (isolation.remote w)) as [[hg|[t|t|m t|t]] rg];
    destruct (Containers_StateChange handle state (isolation.remote w))
      as [[hs|[t'|t'|m' t'|t']] rs];
    step_iso; split_ands; try reflexivity; try congruence; try (split; congruence).
Qed.

(** A container the remote does not know, and a state change answered with a
    default response. *)
Lemma Handle_and_SetState_witness :
  fst (isolation.Handle getUnknown (proxyOver acceptingLayer) "abc123" "web" (begin 0))
  = ("", Some (isolation.NotFoundError (Go.Lit "web"))) /\
  fst (isolation.SetState stateChangeDefault (proxyOver acceptingLayer)
         "handle-9" "web" "RUNNING" (begin 0))
  = ("", Some (isolation.InternalServerError (Go.Lit "invalid state"))).
Proof.
  destruct (Handle_and_SetState getUnknown stateChangeDefault (proxyOver acceptingLayer)
              acceptingLayer "abc123" "web" "handle-9" "RUNNING" (begin 0) eq_refl)
    as [_ [_ [_ [_ [Hg [_ [_ [Hs _]]]]]]]].
  split; [eapply Hg; reflexivity | eapply Hs; reflexivity].
Defined.

(** ** The provider's configuration *)

(** X20: with no config file named, NewVicConfig reads the environment: it
    asks for PERSONA_ADDR and then PORTLAYER_ADDR, reads no file, and returns
    their values (empty where a variable is not set). *)
Theorem NewVicConfig_from_env {Host : Type}
  (ioutil_ReadFile : string -> Host -> string + string)
  (yaml_Unmarshal : string -> config.VicConfig -> config.VicConfig * option string)
  (os_Getenv : string -> Host -> string) (w : config.World Host) :
  config.NewVicConfig ioutil_ReadFile yaml_Unmarshal os_Getenv "" w
  = ({| config.PersonaAddr := os_Getenv "PERSONA_ADDR" (config.host w);
        config.PortlayerAddr := os_Getenv "PORTLAYER_ADDR" (config.host w) |},
     {| config.host := config.host w;
        config.trace :=
          config.trace w ++ [config.Getenv "PERSONA_ADDR"; config.Getenv "PORTLAYER_ADDR"] |}).
Proof.
  unfold config.NewVicConfig, config.loadConfigFromEnv, config.ask, Go.bind, Go.ret.
  cbn [String.eqb config.host config.trace].
  now rewrite <- app_assoc.
Qed.

(** X21: with a config file named, NewVicConfig reads that file, once, and
    never the environment, and it swallows every failure: when the file cannot
    be read or its contents cannot be parsed the result is the zero config --
    both addresses empty, whatever the parser had filled in -- exactly as for a
    file that sets nothing.  Only a file that is read and parsed gives its
    config. *)
Theorem NewVicConfig_from_file {Host : Type}
  (ioutil_ReadFile : string -> Host -> string + string)
  (yaml_Unmarshal : string -> config.VicConfig -> config.VicConfig * option string)
  (os_Getenv : string -> Host -> string) (configFile : string) (w : config.World Host) :
  configFile <> "" ->
  let out := config.NewVicConfig ioutil_ReadFile yaml_Unmarshal os_Getenv configFile w in
  envReads (config.trace (snd out)) = envReads (config.trace w) /\
  fileReads (config.trace (snd out)) = fileReads (config.trace w) ++ [configFile] /\
  (forall msg, ioutil_ReadFile configFile (config.host w) = inr msg ->
     fst out = config.zeroVicConfig) /\
  (forall contents partial msg,
     ioutil_ReadFile configFile (config.host w) = inl contents ->
     yaml_Unmarshal contents config.zeroVicConfig = (partial, Some msg) ->
     fst out = config.zeroVicConfig) /\
  (forall contents parsed,
     ioutil_ReadFile configFile (config.host w) = inl contents ->
     yaml_Unmarshal contents config.zeroVicConfig = (parsed, None) ->
     fst out = parsed).
Proof.
  intros Hne. cbv zeta.
  unfold config.NewVicConfig, config.loadConfigFile, config.ask, config.emit, Go.bind, Go.ret.
  apply String.eqb_neq in Hne. rewrite Hne. cbn [config.host config.trace].
  destruct (ioutil_ReadFile configFile (config.host w)) as [contents|msg];
    [destruct (yaml_Unmarshal contents config.zeroVicConfig) as [cfg [m|]] eqn:Y|];
    cbn [fst snd config.host config.trace]; split_ands;
    try (unfold envReads; rewrite !omap_app; simpl; now rewrite ?app_nil_r);
    try (unfold fileReads; rewrite !omap_app; simpl; now rewrite ?app_nil_r);
    try reflexivity; try congruence;
    try (intros c p [= <-] H; rewrite Y in H; congruence);
    try (intros c p msg [= <-] H; rewrite Y in H; congruence).
Qed.

(** A file that is not there, a file that does not parse and the one that
    does. *)
Lemma NewVicConfig_from_file_witness :
  fst (config.NewVicConfig oneFile strictParser emptyEnv "/etc/vic.yaml"
         {| config.host := tt; config.trace := [] |})
  = {| config.PersonaAddr := "p:2376"; config.PortlayerAddr := "" |} /\
  fst (config.NewVicConfig oneFile strictParser emptyEnv "/etc/missing.yaml"
         {| config.host := tt; config.trace := [] |})
  = config.zeroVicConfig.
Proof.
  split.
  - destruct (NewVicConfig_from_file oneFile strictParser emptyEnv "/etc/vic.yaml"
                {| config.host := tt; config.trace := [] |} ltac:(discriminate))
      as [_ [_ [_ [_ H]]]].
    eapply H; reflexivity.
  - destruct (NewVicConfig_from_file oneFile strictParser emptyEnv "/etc/missing.yaml"
                {| config.host := tt; config.trace := [] |} ltac:(discriminate))
      as [_ [_ [H _]]].
    eapply H. reflexivity.
Defined.
